(** * geomstats: the [RiemannianMetric] base class

    A shallow embedding of [geomstats/riemannian_metric.py] and the
    properties of its derived operations ([inner_product], [squared_norm],
    [norm], [squared_dist], [dist], [variance], [mean]).

    Conventions of the embedding.
    - A Python float is an idealised real number ([R]); rounding, NaN and
      infinities are outside the model.
    - Points and tangent vectors are values of one opaque type [array]
      (in Python both are [numpy] arrays); the inner-product matrix is a
      value of an opaque type [matrix].  The [numpy] operations the class
      applies to them are collected in the interface [Numpy]; the instance
      [numpy_1d] gives them for one-dimensional float arrays.
    - A Python exception is a value of [exn]; a call that may raise returns
      a [result].
    - The [while True] loop of [mean] is driven by a fuel counter; running
      out of fuel is the outcome [OutOfFuel], distinct from every return
      value and from every exception. *)

From Stdlib Require Import Reals Lra List String ZArith Lia Bool.
From Stdlib Require Import DecimalString.
Import ListNotations.

Open Scope R_scope.

(** ** Exceptions and results *)

Inductive exn : Type :=
| NotImplementedError (msg : string)
| ValueError (msg : string)
| AssertionError
| AttributeError (msg : string)
| TypeError (msg : string)
| IndexError (msg : string).

Inductive result (A : Type) : Type :=
| Ok (a : A)
| Raise (e : exn).

Arguments Ok {A} a.
Arguments Raise {A} e.

Definition bind {A B : Type} (c : result A) (k : A -> result B) : result B :=
  match c with
  | Ok a => k a
  | Raise e => Raise e
  end.

Notation "x <- c ;; k" := (bind c (fun x => k))
  (at level 61, c at next level, right associativity).

(** [assert b]: Python's [assert] statement. *)
Definition assert (b : bool) : result unit :=
  if b then Ok tt else Raise AssertionError.

(** ** The numpy operations used by the class *)

Class Numpy (array matrix : Type) : Type := {
  (** [a.transpose()] *)
  transpose : array -> array;
  (** [np.dot(a, M)] for an array and the inner-product matrix *)
  dot_am : array -> matrix -> result array;
  (** [np.dot(a, b)] for two arrays: a scalar *)
  dot_aa : array -> array -> result R;
  (** [np.zeros_like(a)] *)
  zeros_like : array -> array;
  (** [w * a] for a scalar weight [w] *)
  scale : R -> array -> array;
  (** [a += b], in place on [a] *)
  iadd : array -> array -> result array;
  (** [a /= s], in place on [a] *)
  idiv : array -> R -> array
}.

(** ** Python sequences of points *)

(** The [points] argument is either a numpy array whose items along the
    first axis are the points (its shape is [len items :: item_shape], so
    it is two-dimensional exactly when [item_shape] has one entry), or a
    plain Python list (or tuple) of points, which has no [shape]. *)
Inductive sequence (array : Type) : Type :=
| ndarray (item_shape : list nat) (items : list array)
| pylist (items : list array).

Arguments ndarray {array} item_shape items.
Arguments pylist {array} items.

Section Sequences.
Context {array : Type}.

Definition items_of (points : sequence array) : list array :=
  match points with
  | ndarray _ items => items
  | pylist items => items
  end.

(** [len(points)] *)
Definition len (points : sequence array) : nat :=
  List.length (items_of points).

(** [points.shape] *)
Definition shape (points : sequence array) : result (list nat) :=
  match points with
  | ndarray item_shape items => Ok (List.length items :: item_shape)
  | pylist _ => Raise (AttributeError "'list' object has no attribute 'shape'")
  end.

(** [points[i]] for [0 <= i] *)
Definition getitem (points : sequence array) (i : nat) : result array :=
  match nth_error (items_of points) i with
  | Some p => Ok p
  | None => Raise (IndexError "index out of range")
  end.

(** [points[i, :]] for [0 <= i] *)
Definition getitem_row (points : sequence array) (i : nat) : result array :=
  match points with
  | ndarray [] _ => Raise (IndexError "too many indices for array")
  | ndarray (_ :: _) items =>
      match nth_error items i with
      | Some p => Ok p
      | None => Raise (IndexError "index out of bounds")
      end
  | pylist _ => Raise (TypeError "list indices must be integers or slices, not tuple")
  end.

(** [points] is a numpy array of exactly two dimensions. *)
Definition is_2d (points : sequence array) : bool :=
  match points with
  | ndarray [_] _ => true
  | _ => false
  end.

End Sequences.

(** [n_points, _ = shp]: unpacking a shape into exactly two values. *)
Definition unpack2 (shp : list nat) : result (nat * nat) :=
  match shp with
  | [n; d] => Ok (n, d)
  | [] | [_] => Raise (ValueError "not enough values to unpack (expected 2)")
  | _ => Raise (ValueError "too many values to unpack (expected 2)")
  end.

(** [weights[i]] for [0 <= i] *)
Definition getweight (weights : list R) (i : nat) : result R :=
  match nth_error weights i with
  | Some w => Ok w
  | None => Raise (IndexError "index out of range")
  end.

(** [np.ones(n)] *)
Definition np_ones (n : nat) : list R := repeat 1 n.

(** [sum(weights)]: Python's built-in sum, left to right from [0]. *)
Definition py_sum (weights : list R) : R := fold_left Rplus weights 0.

(** [EPSILON = 1e-5] *)
Definition EPSILON : R := 1 / 100000.

(** ** The state around a metric object *)

(** What a call can observe and change besides its result: the instance
    attribute [self.dimension], and the messages handed to
    [logging.warning]. *)
Record world : Type := {
  dimension : Z;
  logged : list string
}.

(** [RiemannianMetric.__init__(self, dimension)] *)
Definition __init__ (dim : Z) (st : world) : world :=
  {| dimension := dim; logged := logged st |}.

(** [logging.warning(msg)] *)
Definition logging_warning (msg : string) (st : world) : world :=
  {| dimension := dimension st; logged := logged st ++ [msg] |}.

(** How a call of [mean] ends within a given fuel. *)
Inductive outcome (A : Type) : Type :=
| Returns (a : A)
| Raises (e : exn)
| OutOfFuel.

Arguments Returns {A} a.
Arguments Raises {A} e.
Arguments OutOfFuel {A}.

Definition outcome_of {A : Type} (r : result A) : outcome A :=
  match r with
  | Ok a => Returns a
  | Raise e => Raises e
  end.

(** [str(n)] for a Python int, as [str.format] prints it. *)
Definition str_of_int (n : Z) : string := NilZero.string_of_int (Z.to_int n).

(** ['Maximum number of iterations {} reached.'
     'The mean may be inaccurate' ''.format(n_max_iterations)] *)
Definition max_iterations_message (n_max_iterations : Z) : string :=
  ("Maximum number of iterations " ++ str_of_int n_max_iterations
     ++ " reached." ++ "The mean may be inaccurate")%string.

Definition norm_message : string :=
  ("The squared norm of this vector is non-positive."
   ++ " The method 'norm' only works for positive-definite"
   ++ " Riemannian metrics and inner products.")%string.

Definition dist_message : string :=
  ("The squared distance between these points is"
   ++ " non-positive. The method 'dist' only works for"
   ++ " positive-definite Riemannian metrics"
   ++ " and inner products.")%string.

(** ** The class *)

(** The methods a concrete metric (a subclass) supplies.  [RiemannianMetric]
    declares [inner_product_matrix], [exp] and [log]; it has no attribute
    named [squared_distance], which [variance] and [mean] look up on
    [self]: the lookup succeeds only when the subclass defines one, hence
    the [option]. *)
Record MetricClass (array matrix : Type) : Type := {
  inner_product_matrix : option array -> result matrix;
  exp : array -> option array -> result array;
  log : array -> option array -> result array;
  squared_distance : option (array -> array -> result R)
}.

Arguments inner_product_matrix {array matrix} _ _.
Arguments exp {array matrix} _ _ _.
Arguments log {array matrix} _ _ _.
Arguments squared_distance {array matrix} _.

(** The base class itself: the three abstract methods raise. *)
Definition RiemannianMetric (array matrix : Type) : MetricClass array matrix := {|
  inner_product_matrix := fun _ =>
    Raise (NotImplementedError
             ("The computation of the inner product matrix"
              ++ " is not implemented.")%string);
  exp := fun _ _ =>
    Raise (NotImplementedError "The Riemannian exponential is not implemented.");
  log := fun _ _ =>
    Raise (NotImplementedError "The Riemannian logarithm is not implemented.");
  squared_distance := None
|}.

Section Methods.
Context {array matrix : Type} {np : Numpy array matrix}.
Variable self : MetricClass array matrix.

(** [self.squared_distance]: the attribute lookup. *)
Definition getattr_squared_distance : result (array -> array -> result R) :=
  match squared_distance self with
  | Some f => Ok f
  | None =>
      Raise (AttributeError "object has no attribute 'squared_distance'")
  end.

Definition inner_product (tangent_vec_a tangent_vec_b : array)
    (base_point : option array) : result R :=
  inner_prod_mat <- inner_product_matrix self base_point ;;
  t <- dot_am (transpose tangent_vec_a) inner_prod_mat ;;
  dot_aa t tangent_vec_b.

Definition squared_norm (vector : array) (base_point : option array) : result R :=
  inner_product vector vector base_point.

Definition norm (vector : array) (base_point : option array) : result R :=
  sq_norm <- squared_norm vector base_point ;;
  if Rlt_dec sq_norm 0 then Raise (ValueError norm_message)
  else Ok (sqrt sq_norm).

Definition squared_dist (point_a point_b : array) : result R :=
  log_ <- log self point_b (Some point_a) ;;
  squared_norm log_ (Some point_a).

Definition dist (point_a point_b : array) : result R :=
  sq_dist <- squared_dist point_a point_b ;;
  if Rlt_dec sq_dist 0 then Raise (ValueError dist_message)
  else Ok (sqrt sq_dist).

(** The [for i in range(n_points)] loop of [variance], over the indices
    still to visit, with the accumulator [variance]. *)
Fixpoint variance_loop (base_point : array) (points : sequence array)
    (weights : list R) (indices : list nat) (variance : R) : result R :=
  match indices with
  | [] => Ok variance
  | i :: rest =>
      weight_i <- getweight weights i ;;
      point_i <- getitem_row points i ;;
      squared_distance_ <- getattr_squared_distance ;;
      sq_dist <- squared_distance_ base_point point_i ;;
      variance_loop base_point points weights rest (variance + weight_i * sq_dist)
  end.

Definition variance (base_point : array) (points : sequence array)
    (weights : list R) : result R :=
  shp <- shape points ;;
  n_points_d <- unpack2 shp ;;
  let n_points := fst n_points_d in
  let n_weights := List.length weights in
  _ <- assert (0 <? n_points)%nat ;;
  _ <- assert (n_points =? n_weights)%nat ;;
  variance_loop base_point points weights (seq 0 n_points) 0.

(** The [for i in range(n_points)] loop of [mean], accumulating
    [tangent_mean]. *)
Fixpoint tangent_mean_loop (mean : array) (points : sequence array)
    (weights : list R) (indices : list nat) (tangent_mean : array)
    : result array :=
  match indices with
  | [] => Ok tangent_mean
  | i :: rest =>
      point_i <- getitem points i ;;
      weight_i <- getweight weights i ;;
      log_i <- log self point_i (Some mean) ;;
      tangent_mean <- iadd tangent_mean (scale weight_i log_i) ;;
      tangent_mean_loop mean points weights rest tangent_mean
  end.

(** One pass through the body of [while True], up to the stopping test:
    the values of [sq_dist] and [variance] it tests. *)
Definition iteration (mean : array) (points : sequence array)
    (weights : list R) (n_points : nat) (sum_weights : R) : result (R * R) :=
  a_tangent_vector <- log self mean (Some mean) ;;
  let tangent_mean := zeros_like a_tangent_vector in
  tangent_mean <- tangent_mean_loop mean points weights (seq 0 n_points) tangent_mean ;;
  let tangent_mean := idiv tangent_mean sum_weights in
  mean_next <- exp self tangent_mean (Some mean) ;;
  squared_distance_ <- getattr_squared_distance ;;
  sq_dist <- squared_distance_ mean_next mean ;;
  variance_ <- variance mean_next points weights ;;
  Ok (sq_dist, variance_).

(** The [while True] loop of [mean].  [it] is the iteration counter and
    [sq_dists_between_iterates] the list the loop appends to (and never
    reads).  [mean] is a parameter: the loop does not assign it. *)
Fixpoint mean_loop (fuel : nat) (mean : array) (points : sequence array)
    (weights : list R) (n_points : nat) (sum_weights : R)
    (n_max_iterations : Z) (epsilon : R)
    (it : Z) (sq_dists_between_iterates : list R) (st : world)
    : outcome array * world :=
  match fuel with
  | O => (OutOfFuel, st)
  | S fuel' =>
      let it := (it + 1)%Z in
      match iteration mean points weights n_points sum_weights with
      | Raise e => (Raises e, st)
      | Ok (sq_dist, variance_) =>
          let sq_dists_between_iterates := sq_dists_between_iterates ++ [sq_dist] in
          if Rlt_dec sq_dist (epsilon * variance_) then (Returns mean, st)
          else
            let st :=
              if (it =? n_max_iterations)%Z
              then logging_warning (max_iterations_message n_max_iterations) st
              else st in
            mean_loop fuel' mean points weights n_points sum_weights
              n_max_iterations epsilon it sq_dists_between_iterates st
      end
  end.

(** [mean(points, weights=None, n_max_iterations=100, epsilon=EPSILON)] *)
Definition mean (fuel : nat) (points : sequence array)
    (weights : option (list R)) (n_max_iterations : Z) (epsilon : R)
    (st : world) : outcome array * world :=
  let n_points := len points in
  match assert (0 <? n_points)%nat with
  | Raise e => (Raises e, st)
  | Ok _ =>
      let weights :=
        match weights with
        | None => np_ones n_points
        | Some w => w
        end in
      let n_weights := List.length weights in
      match assert (n_points =? n_weights)%nat with
      | Raise e => (Raises e, st)
      | Ok _ =>
          let sum_weights := py_sum weights in
          match getitem points 0 with
          | Raise e => (Raises e, st)
          | Ok mean_ =>
              if (n_points =? 1)%nat then (Returns mean_, st)
              else
                mean_loop fuel mean_ points weights n_points sum_weights
                  n_max_iterations epsilon 0%Z [] st
          end
      end
  end.

End Methods.

(** ** The public interface as one dispatcher *)

(** A call of one of the seven derived operations, with its arguments. *)
Inductive call (array : Type) : Type :=
| call_inner_product (tangent_vec_a tangent_vec_b : array) (base_point : option array)
| call_squared_norm (vector : array) (base_point : option array)
| call_norm (vector : array) (base_point : option array)
| call_squared_dist (point_a point_b : array)
| call_dist (point_a point_b : array)
| call_variance (base_point : array) (points : sequence array) (weights : list R)
| call_mean (points : sequence array) (weights : option (list R))
    (n_max_iterations : Z) (epsilon : R).

Arguments call_inner_product {array} _ _ _.
Arguments call_squared_norm {array} _ _.
Arguments call_norm {array} _ _.
Arguments call_squared_dist {array} _ _.
Arguments call_dist {array} _ _.
Arguments call_variance {array} _ _ _.
Arguments call_mean {array} _ _ _ _.

(** What a derived operation returns: a float or an array. *)
Inductive value (array : Type) : Type :=
| Float (x : R)
| Array (a : array).

Arguments Float {array} x.
Arguments Array {array} a.

Definition map_outcome {A B : Type} (f : A -> B) (o : outcome A) : outcome B :=
  match o with
  | Returns a => Returns (f a)
  | Raises e => Raises e
  | OutOfFuel => OutOfFuel
  end.

Section Invoke.
Context {array matrix : Type} {np : Numpy array matrix}.
Variable self : MetricClass array matrix.

(** A float-valued operation has no statement that touches [self] or the
    log: the state after the call is the state before it. *)
Definition float_call (r : result R) (st : world) : outcome (value array) * world :=
  (map_outcome Float (outcome_of r), st).

Definition invoke (fuel : nat) (c : call array) (st : world)
    : outcome (value array) * world :=
  match c with
  | call_inner_product a b base_point => float_call (inner_product self a b base_point) st
  | call_squared_norm v base_point => float_call (squared_norm self v base_point) st
  | call_norm v base_point => float_call (norm self v base_point) st
  | call_squared_dist a b => float_call (squared_dist self a b) st
  | call_dist a b => float_call (dist self a b) st
  | call_variance base_point points weights =>
      float_call (variance self base_point points weights) st
  | call_mean points weights n_max_iterations epsilon =>
      let r := mean self fuel points weights n_max_iterations epsilon st in
      (map_outcome Array (fst r), snd r)
  end.

(** A run of calls on one metric object, each with its own fuel; results
    are dropped, the state is threaded. *)
Fixpoint invoke_all (calls : list (nat * call array)) (st : world) : world :=
  match calls with
  | [] => st
  | (fuel, c) :: rest => invoke_all rest (snd (invoke fuel c st))
  end.

End Invoke.

(** ** Concrete arrays: one-dimensional float arrays *)

Definition vector : Type := list R.
Definition matrix2 : Type := list (list R).

(** The sum of the products of paired entries. *)
Definition sum_products (a b : list R) : R :=
  fold_left Rplus (map (fun ab => fst ab * snd ab) (combine a b)) 0.

(** [np.dot(a, b)] for shapes [(n,)] and [(n,)]. *)
Definition np_dot_11 (a b : vector) : result R :=
  if (List.length a =? List.length b)%nat then Ok (sum_products a b)
  else Raise (ValueError "shapes not aligned").

Definition column (m : matrix2) (j : nat) : list R :=
  map (fun row => nth j row 0) m.

Definition n_columns (m : matrix2) : nat :=
  match m with
  | [] => O
  | row :: _ => List.length row
  end.

(** [np.dot(a, m)] for shapes [(n,)] and [(n, k)]: shape [(k,)]. *)
Definition np_dot_12 (a : vector) (m : matrix2) : result vector :=
  if (List.length a =? List.length m)%nat
  then Ok (map (fun j => sum_products a (column m j)) (seq 0 (n_columns m)))
  else Raise (ValueError "shapes not aligned").

(** [a + b] for one-dimensional arrays, with numpy's broadcasting of a
    length-one operand. *)
Definition np_add (a b : vector) : result vector :=
  if (List.length a =? List.length b)%nat
  then Ok (map (fun ab => fst ab + snd ab) (combine a b))
  else match a, b with
       | [x], _ => Ok (map (fun y => x + y) b)
       | _, [y] => Ok (map (fun x => x + y) a)
       | _, _ => Raise (ValueError "operands could not be broadcast together")
       end.

(** [a - b], likewise. *)
Definition np_sub (a b : vector) : result vector :=
  if (List.length a =? List.length b)%nat
  then Ok (map (fun ab => fst ab - snd ab) (combine a b))
  else match a, b with
       | [x], _ => Ok (map (fun y => x - y) b)
       | _, [y] => Ok (map (fun x => x - y) a)
       | _, _ => Raise (ValueError "operands could not be broadcast together")
       end.

(** [a += b]: the result must have the shape of [a]. *)
Definition np_iadd (a b : vector) : result vector :=
  if (List.length a =? List.length b)%nat
  then Ok (map (fun ab => fst ab + snd ab) (combine a b))
  else match b with
       | [y] => Ok (map (fun x => x + y) a)
       | _ => Raise (ValueError "non-broadcastable output operand")
       end.

#[export] Instance numpy_1d : Numpy vector matrix2 := {|
  transpose := fun a => a;
  dot_am := np_dot_12;
  dot_aa := np_dot_11;
  zeros_like := map (fun _ => 0);
  scale := fun w => map (Rmult w);
  iadd := np_iadd;
  idiv := fun a s => map (fun x => x / s) a
|}.

(** [np.eye(d)] *)
Definition np_eye (d : nat) : matrix2 :=
  map (fun i => map (fun j => if (i =? j)%nat then 1 else 0) (seq 0 d)) (seq 0 d).

(** Adding or subtracting [None] and an array. *)
Definition none_operand {A : Type} : result A :=
  Raise (TypeError "unsupported operand type(s): 'NoneType'").

(** A metric whose inner-product matrix [m] is the same at every point, as
    a subclass that defines the three abstract methods and nothing else:
    [exp(v, p) = p + v] and [log(q, p) = q - p]. *)
Definition FlatMetric (m : matrix2) : MetricClass vector matrix2 := {|
  inner_product_matrix := fun _ => Ok m;
  exp := fun tangent_vec base_point =>
    match base_point with
    | Some p => np_add p tangent_vec
    | None => none_operand
    end;
  log := fun point base_point =>
    match base_point with
    | Some p => np_sub point p
    | None => none_operand
    end;
  squared_distance := None
|}.

(** The Euclidean metric of dimension [d]: the identity matrix. *)
Definition EuclideanMetric (d : nat) : MetricClass vector matrix2 :=
  FlatMetric (np_eye d).

(** An indefinite metric of dimension 2: the matrix [diag(1, -1)]. *)
Definition MinkowskiMetric : MetricClass vector matrix2 :=
  FlatMetric [[1; 0]; [0; -1]].

(** A subclass of [cls] that also defines
    [squared_distance = squared_dist]. *)
Definition with_squared_distance {array matrix : Type} {np : Numpy array matrix}
    (cls : MetricClass array matrix) : MetricClass array matrix := {|
  inner_product_matrix := inner_product_matrix cls;
  exp := exp cls;
  log := log cls;
  squared_distance := Some (squared_dist cls)
|}.

(** ** Concrete arrays: floats as zero-dimensional arrays *)

#[export] Instance numpy_0d : Numpy R R := {|
  transpose := fun a => a;
  dot_am := fun a m => Ok (a * m);
  dot_aa := fun a b => Ok (a * b);
  zeros_like := fun _ => 0;
  scale := Rmult;
  iadd := fun a b => Ok (a + b);
  idiv := Rdiv
|}.

(** The real line with its usual metric, points being floats. *)
Definition RealLineMetric : MetricClass R R := {|
  inner_product_matrix := fun _ => Ok 1;
  exp := fun tangent_vec base_point =>
    match base_point with
    | Some p => Ok (p + tangent_vec)
    | None => none_operand
    end;
  log := fun point base_point =>
    match base_point with
    | Some p => Ok (point - p)
    | None => none_operand
    end;
  squared_distance := None
|}.

(** A metric on the real line whose inner-product matrix depends on the
    base point: it is the base point itself. *)
Definition ConformalLineMetric : MetricClass R R := {|
  inner_product_matrix := fun base_point =>
    match base_point with
    | Some p => Ok p
    | None => none_operand
    end;
  exp := exp RealLineMetric;
  log := log RealLineMetric;
  squared_distance := None
|}.

(** The state right after [RiemannianMetric.__init__(self, dim)], with
    nothing logged yet. *)
Definition fresh (dim : Z) : world := __init__ dim {| dimension := 0; logged := [] |}.

(** ** Reference quantities and scenarios *)

(** [sum_i weights[i] * sq_dists[i]], accumulated from [0] in index
    order. *)
Definition weighted_sum (weights sq_dists : list R) : R :=
  fold_left (fun acc wd => acc + fst wd * snd wd) (combine weights sq_dists) 0.

(** The call raised a [ValueError], whatever its message. *)
Definition raises_ValueError {A : Type} (r : result A) : Prop :=
  exists msg, r = Raise (ValueError msg).

(** What [fuel] passes of the loop of [mean] log when none of them breaks,
    the first of them being pass number [it + 1]: the warning, once, if
    pass number [n_max_iterations] is among them. *)
Definition warnings_between (n_max_iterations it : Z) (fuel : nat) : list string :=
  if ((it <? n_max_iterations) && (n_max_iterations <=? it + Z.of_nat fuel))%Z
  then [max_iterations_message n_max_iterations] else [].

(** [np.array([[0, 0], [2, 0], [1, 2]])] *)
Definition triangle : sequence vector := ndarray [2%nat] [[0; 0]; [2; 0]; [1; 2]].

(** [np.array([[0, 0], [2, 0]])] *)
Definition segment : sequence vector := ndarray [2%nat] [[0; 0]; [2; 0]].

(** [[np.array([0, 0]), np.array([2, 0])]]: a Python list of two points. *)
Definition segment_list : sequence vector := pylist [[0; 0]; [2; 0]].

(** [np.array([0, 2])]: a flat array of two points of the real line. *)
Definition flat_pair : sequence R := ndarray [] [0; 2].

(** The weights [mean] works with: those given, else [np.ones(n_points)]. *)
Definition weights_or_ones (weights : option (list R)) (n_points : nat) : list R :=
  match weights with
  | None => np_ones n_points
  | Some w => w
  end.

(** ** The two-dimensional visualizer: geodesic grids *)

(** A call on a matplotlib [Axes] object: it may change the object and
    then return or raise; what was drawn before an exception stays
    drawn. *)
Definition drawing (axes A : Type) : Type := axes -> result A * axes.

Definition done {axes : Type} : drawing axes unit := fun ax => (Ok tt, ax).

Definition failing {axes : Type} (e : exn) : drawing axes unit :=
  fun ax => (Raise e, ax).

(** [first; second] *)
Definition and_then {axes : Type} (first second : drawing axes unit)
    : drawing axes unit :=
  fun ax =>
    match first ax with
    | (Ok _, ax') => second ax'
    | (Raise e, ax') => (Raise e, ax')
    end.

(** [for x in l: f(x)] *)
Fixpoint for_each {axes A : Type} (f : A -> drawing axes unit) (l : list A)
    : drawing axes unit :=
  match l with
  | [] => done
  | x :: rest => and_then (f x) (for_each f rest)
  end.

(** An argument documented as "float or list". *)
Inductive scalar_or_list (A : Type) : Type :=
| a_scalar (x : A)
| a_list (l : list A).

Arguments a_scalar {A} x.
Arguments a_list {A} l.

(** [gs.array(x) * gs.ones(2)]: numpy's broadcasting of a scalar, or of a
    list of one or two entries, to two entries. *)
Definition broadcast_to_2 {A : Type} (x : scalar_or_list A) : result (A * A) :=
  match x with
  | a_scalar a => Ok (a, a)
  | a_list [a] => Ok (a, a)
  | a_list [a; b] => Ok (a, b)
  | a_list _ => Raise (ValueError "operands could not be broadcast together")
  end.

(** [v[i]] for an array-like [v] and [0 <= i] *)
Definition coordinate (v : vector) (i : nat) : result R :=
  match nth_error v i with
  | Some x => Ok x
  | None => Raise (IndexError "index out of range")
  end.

(** What [Visualizer2D] uses without defining it: the functions of the
    backend [gs], the [plot] method of the [Axes] object, and the
    [geodesic] method of [self.space.metric]. *)
Class Plotting (axes curve row : Type) : Type := {
  (** [gs.linspace(start, stop, num)] *)
  gs_linspace : R -> R -> Z -> result vector;
  (** [gs.arange(start, stop, step)] *)
  gs_arange : R -> R -> R -> result vector;
  (** the items of [gs.transpose(a)], as [*] unpacks them *)
  gs_transpose : curve -> list row;
  (** [ax.plot] on the unpacked items and the keyword arguments *)
  ax_plot : list row -> drawing axes unit;
  (** [self.space.metric.geodesic(initial_point, end_point,
      initial_tangent_vec)]: a function of the times *)
  metric_geodesic :
    vector -> option vector -> option vector -> result (vector -> result curve);
  (** the default of [times], [gs.linspace(0, 1, 10)] as it was evaluated
      when the class was defined *)
  default_times : vector
}.

Section Visualizer2D.
Context {axes curve row : Type} {plt : Plotting axes curve row}.

(** [Visualizer2D.plot_geodesic(ax, initial_point, end_point,
    initial_tangent_vec, times, **kwargs)]; the keyword arguments are
    handed on to [ax.plot] untouched and are left out. *)
Definition plot_geodesic (initial_point : vector) (end_point : option vector)
    (initial_tangent_vec : option vector) (times : vector)
    : drawing axes unit :=
  fun ax =>
    match metric_geodesic initial_point end_point initial_tangent_vec with
    | Raise e => (Raise e, ax)
    | Ok geodesic =>
        match geodesic times with
        | Raise e => (Raise e, ax)
        | Ok geod_at_t => ax_plot (rev (gs_transpose geod_at_t)) ax
        end
    end.

(** [plot_geodesic] from the first point of a pair to the second, with the
    default [times]: the call [plot_grid] makes. *)
Definition plot_pair (pq : vector * vector) : drawing axes unit :=
  plot_geodesic (fst pq) (Some (snd pq)) None default_times.

(** The first part of [plot_grid]: [h_points] and [v_points]. *)
Definition grid_points (lower_left upper_right : vector)
    (n_cells : option (scalar_or_list Z)) (steps : option (scalar_or_list R))
    : result (vector * vector) :=
  match n_cells with
  | Some n_cells =>
      n_cells <- broadcast_to_2 n_cells ;;
      let n_cells := ((fst n_cells + 1)%Z, (snd n_cells + 1)%Z) in
      x0 <- coordinate lower_left 0 ;;
      x1 <- coordinate upper_right 0 ;;
      h_points <- gs_linspace x0 x1 (fst n_cells) ;;
      y0 <- coordinate lower_left 1 ;;
      y1 <- coordinate upper_right 1 ;;
      v_points <- gs_linspace y0 y1 (snd n_cells) ;;
      Ok (h_points, v_points)
  | None =>
      match steps with
      | Some steps =>
          steps <- broadcast_to_2 steps ;;
          x0 <- coordinate lower_left 0 ;;
          x1 <- coordinate upper_right 0 ;;
          h_points <- gs_arange x0 x1 (fst steps) ;;
          y0 <- coordinate lower_left 1 ;;
          y1 <- coordinate upper_right 1 ;;
          v_points <- gs_arange y0 y1 (snd steps) ;;
          Ok (h_points, v_points)
      | None =>
          Raise (ValueError
                   "Either the number of cells of the grid or the steps must input.")
      end
  end.

(** [gs.array([[[h_point, v_point] for v_point in v_points]
               for h_point in h_points])] *)
Definition make_grid (h_points v_points : vector) : list (list vector) :=
  map (fun h_point => map (fun v_point => [h_point; v_point]) v_points) h_points.

(** [grid[i, j]] for [0 <= i] and [0 <= j] *)
Definition grid_at (grid : list (list vector)) (i j : nat) : result vector :=
  match nth_error grid i with
  | Some grid_row =>
      match nth_error grid_row j with
      | Some p => Ok p
      | None => Raise (IndexError "index out of bounds")
      end
  | None => Raise (IndexError "index out of bounds")
  end.

(** [self.plot_geodesic(ax=ax, initial_point=grid[i, j],
    end_point=grid[i', j'], **kwargs)] *)
Definition plot_edge (grid : list (list vector)) (i j i' j' : nat)
    : drawing axes unit :=
  fun ax =>
    match grid_at grid i j with
    | Raise e => (Raise e, ax)
    | Ok initial_point =>
        match grid_at grid i' j' with
        | Raise e => (Raise e, ax)
        | Ok end_point =>
            plot_geodesic initial_point (Some end_point) None default_times ax
        end
    end.

(** The body of [for j in range(v_size)]. *)
Definition grid_cell (grid : list (list vector)) (h_size v_size i j : nat)
    : drawing axes unit :=
  and_then
    (if (i <? h_size - 1)%nat then plot_edge grid i j (i + 1) j else done)
    (if (j <? v_size - 1)%nat then plot_edge grid i j i (j + 1) else done).

(** [plot_grid(ax, lower_left, upper_right, n_cells=[5, 5], steps=None,
    **kwargs)] *)
Definition plot_grid (lower_left upper_right : vector)
    (n_cells : option (scalar_or_list Z)) (steps : option (scalar_or_list R))
    : drawing axes unit :=
  fun ax =>
    match grid_points lower_left upper_right n_cells steps with
    | Raise e => (Raise e, ax)
    | Ok (h_points, v_points) =>
        let grid := make_grid h_points v_points in
        let h_size := List.length h_points in
        let v_size := List.length v_points in
        for_each
          (fun i => for_each (grid_cell grid h_size v_size i) (seq 0 v_size))
          (seq 0 h_size) ax
    end.

End Visualizer2D.

(** The pairs of grid points [plot_grid] is to join, in the order of its
    two loops: from each point to its neighbour in the next column of
    [h_points], if any, then to its neighbour in the next row of
    [v_points], if any. *)
Definition grid_edges (h_points v_points : vector) : list (vector * vector) :=
  flat_map
    (fun i =>
       flat_map
         (fun j =>
            let p := [nth i h_points 0; nth j v_points 0] in
            (if (S i <? List.length h_points)%nat
             then [(p, [nth (S i) h_points 0; nth j v_points 0])] else [])
            ++
            (if (S j <? List.length v_points)%nat
             then [(p, [nth i h_points 0; nth (S j) v_points 0])] else []))
         (seq 0 (List.length v_points)))
    (seq 0 (List.length h_points)).

(** ** A plotting environment to run the visualizer in *)

(** The [num] evenly spaced samples from [start] to [stop], both
    included. *)
Definition linspace_values (start stop : R) (num : nat) : vector :=
  match num with
  | 1%nat => [start]
  | _ => map (fun i => start + INR i * ((stop - start) / (INR num - 1)))
           (seq 0 num)
  end.

(** [np.linspace(start, stop, num)] *)
Definition np_linspace (start stop : R) (num : Z) : result vector :=
  if (num <? 0)%Z
  then Raise (ValueError "Number of samples must be non-negative")
  else Ok (linspace_values start stop (Z.to_nat num)).

(** The least integer not below [x]. *)
Definition ceiling (x : R) : Z := (1 - up (- x))%Z.

(** [np.arange(start, stop, step)] on floats: [ceil((stop - start) / step)]
    values from [start] in steps of [step]. *)
Definition np_arange (start stop step : R) : result vector :=
  if Req_dec_T step 0
  then Raise (ValueError "Maximum allowed size exceeded")
  else Ok (map (fun i => start + INR i * step)
             (seq 0 (Z.to_nat (ceiling ((stop - start) / step))))).

(** The geodesics of the Euclidean plane: straight lines, from a point to
    an end point or along a tangent vector. *)
Definition straight_geodesic (initial_point : vector)
    (end_point initial_tangent_vec : option vector)
    : result (vector -> result (list vector)) :=
  let path := fun tangent_vec times =>
    Ok (map (fun t => map (fun pv => fst pv + t * snd pv)
                        (combine initial_point tangent_vec)) times) in
  match end_point, initial_tangent_vec with
  | Some q, None => tangent_vec <- np_sub q initial_point ;; Ok (path tangent_vec)
  | None, Some tangent_vec => Ok (path tangent_vec)
  | _, _ =>
      Raise (ValueError
               "Specify an end point or an initial tangent vector to define the geodesic.")
  end.

(** numpy as the backend, an [Axes] object that keeps the arguments of
    each [plot] in order, and the Euclidean plane as [self.space]. *)
#[export] Instance euclidean_plotting
    : Plotting (list (list vector)) (list vector) vector := {|
  gs_linspace := np_linspace;
  gs_arange := np_arange;
  gs_transpose := fun a => map (column a) (seq 0 (n_columns a));
  ax_plot := fun args ax => (Ok tt, ax ++ [args]);
  metric_geodesic := straight_geodesic;
  default_times := linspace_values 0 1 10
|}.

(** The same, but with an [Axes] object whose [plot] raises once it holds
    three lines. *)
Definition crowded_plotting
    : Plotting (list (list vector)) (list vector) vector := {|
  gs_linspace := np_linspace;
  gs_arange := np_arange;
  gs_transpose := fun a => map (column a) (seq 0 (n_columns a));
  ax_plot := fun args ax =>
    if (List.length ax <? 3)%nat then (Ok tt, ax ++ [args])
    else (Raise (ValueError "no room for another line"), ax);
  metric_geodesic := straight_geodesic;
  default_times := linspace_values 0 1 10
|}.

(** ** The one-dimensional visualizer: geodesic balls *)

Module Visualizer1D.
Section Visualizer1D.
Context {array matrix axes : Type} {np : Numpy array matrix}.

(** [self.space.metric] *)
Variable metric : MetricClass array matrix.
(** [gs.ones(1)] and [gs.zeros(2)] *)
Variables (ones_1 zeros_2 : array).
(** [ax.plot(x, y, fmt, **kwargs)] *)
Variable ax_plot : list array -> array -> string -> drawing axes unit.

(** [Visualizer1D.plot_geodesic_ball(ax, center, ray_norm=1, **kwargs)];
    the keyword arguments are handed on to [ax.plot] untouched and are
    left out. *)
Definition plot_geodesic_ball (center : array) (ray_norm : R)
    : drawing axes unit :=
  fun ax =>
    let one := ones_1 in
    match exp metric (scale (- ray_norm) one) (Some center) with
    | Raise e => (Raise e, ax)
    | Ok left_ =>
        match exp metric (scale ray_norm one) (Some center) with
        | Raise e => (Raise e, ax)
        | Ok right_ => ax_plot [left_; right_] zeros_2 "bo" ax
        end
    end.

End Visualizer1D.
End Visualizer1D.

(** An [Axes] object that keeps the arguments of each such [plot]. *)
Definition record_markers (x : list vector) (y : vector) (fmt : string)
    : drawing (list (list vector * vector * string)) unit :=
  fun ax => (Ok tt, ax ++ [(x, y, fmt)]).

(** * Properties *)

(** ** The loop of [mean] *)

Lemma world_eta (st : world) :
  {| dimension := dimension st; logged := logged st ++ [] |} = st.
Proof. destruct st; simpl; now rewrite app_nil_r. Qed.

Lemma warnings_between_0 (n_max_iterations it : Z) :
  warnings_between n_max_iterations it 0 = [].
Proof.
  unfold warnings_between. rewrite Z.add_0_r.
  destruct (Z.ltb_spec it n_max_iterations), (Z.leb_spec n_max_iterations it);
    simpl; try reflexivity; lia.
Qed.

(** One more pass in front: it logs exactly when it is pass number
    [n_max_iterations]. *)
Lemma warnings_between_step (n_max_iterations it : Z) (fuel : nat) :
  (if (it + 1 =? n_max_iterations)%Z
   then [max_iterations_message n_max_iterations] else [])
  ++ warnings_between n_max_iterations (it + 1) fuel
  = warnings_between n_max_iterations it (S fuel).
Proof.
  unfold warnings_between. rewrite Nat2Z.inj_succ.
  destruct (Z.eqb_spec (it + 1) n_max_iterations),
           (Z.ltb_spec (it + 1) n_max_iterations),
           (Z.ltb_spec it n_max_iterations),
           (Z.leb_spec n_max_iterations (it + 1 + Z.of_nat fuel)),
           (Z.leb_spec n_max_iterations (it + Z.succ (Z.of_nat fuel)));
    simpl; try reflexivity; lia.
Qed.

Section MeanLoop.
Context {array matrix : Type} {np : Numpy array matrix}.
Variable self : MetricClass array matrix.
Variables (mean_ : array) (points : sequence array) (weights : list R).
Variables (n_points : nat) (sum_weights : R).
Variables (n_max_iterations : Z) (epsilon : R).

(** An exception in the body ends the loop at its first pass. *)
Lemma mean_loop_raises (e : exn) :
  iteration self mean_ points weights n_points sum_weights = Raise e ->
  forall fuel it l st,
    mean_loop self (S fuel) mean_ points weights n_points sum_weights
      n_max_iterations epsilon it l st
    = (Raises e, st).
Proof. intros Hb fuel it l st; simpl; now rewrite Hb. Qed.

(** When the test holds at the first pass, the loop breaks there. *)
Lemma mean_loop_breaks (s v : R) :
  iteration self mean_ points weights n_points sum_weights = Ok (s, v) ->
  s < epsilon * v ->
  forall fuel it l st,
    mean_loop self (S fuel) mean_ points weights n_points sum_weights
      n_max_iterations epsilon it l st
    = (Returns mean_, st).
Proof.
  intros Hb Hlt fuel it l st; simpl; rewrite Hb.
  destruct (Rlt_dec s (epsilon * v)); [reflexivity | contradiction].
Qed.

(** When the test fails at the first pass it fails at every pass, since
    nothing the body reads is ever assigned: the loop does not end, and
    passing [n_max_iterations] only logs. *)
Lemma mean_loop_spins (s v : R) :
  iteration self mean_ points weights n_points sum_weights = Ok (s, v) ->
  ~ s < epsilon * v ->
  forall fuel it l st,
    mean_loop self fuel mean_ points weights n_points sum_weights
      n_max_iterations epsilon it l st
    = (OutOfFuel,
     {| dimension := dimension st;
        logged := logged st ++ warnings_between n_max_iterations it fuel |}).
Proof.
  intros Hb Hge; induction fuel as [|fuel IH]; intros it l st.
  - cbn [mean_loop]. now rewrite warnings_between_0, world_eta.
  - cbn [mean_loop]; rewrite Hb.
    destruct (Rlt_dec s (epsilon * v)) as [Hlt|_]; [contradiction|].
    rewrite IH, <- warnings_between_step. f_equal.
    destruct (Z.eqb (it + 1) n_max_iterations); simpl.
    + now rewrite <- app_assoc.
    + reflexivity.
Qed.

(** A value the loop returns is the [mean] it was entered with. *)
Lemma mean_loop_returns (fuel : nat) :
  forall it l st v st',
    mean_loop self fuel mean_ points weights n_points sum_weights
      n_max_iterations epsilon it l st
    = (Returns v, st') ->
    v = mean_.
Proof.
  induction fuel as [|fuel IH]; intros it l st v st' H; simpl in H.
  - discriminate.
  - destruct (iteration self mean_ points weights n_points sum_weights)
      as [[s x]|e]; [|discriminate].
    destruct (Rlt_dec s (epsilon * x)).
    + now inversion H.
    + eapply IH; eassumption.
Qed.

(** The loop returns exactly when its first pass breaks: the value of
    [n_max_iterations] has no part in it. *)
Lemma mean_loop_returns_iff (fuel : nat) (it : Z) (l : list R) (st : world) :
  (exists v st',
      mean_loop self fuel mean_ points weights n_points sum_weights
        n_max_iterations epsilon it l st
      = (Returns v, st')) <->
  (fuel <> O /\
   exists s v,
     iteration self mean_ points weights n_points sum_weights = Ok (s, v) /\
     s < epsilon * v).
Proof.
  split.
  - intros [v [st' H]]. destruct fuel as [|fuel]; [discriminate|].
    split; [discriminate|].
    destruct (iteration self mean_ points weights n_points sum_weights)
      as [[s x]|e] eqn:Hb.
    + destruct (Rlt_dec s (epsilon * x)) as [Hlt|Hge].
      * now exists s, x.
      * rewrite (mean_loop_spins s x Hb Hge) in H. discriminate.
    + rewrite (mean_loop_raises e Hb) in H. discriminate.
  - intros [Hfuel [s [v [Hb Hlt]]]]. destruct fuel as [|fuel]; [contradiction|].
    exists mean_, st. now apply (mean_loop_breaks s v).
Qed.

(** The loop leaves [dimension] alone, and what it returns and logs does
    not depend on the state it starts from. *)
Lemma mean_loop_frame (fuel : nat) (it : Z) (l : list R) :
  exists out emitted, forall st,
    mean_loop self fuel mean_ points weights n_points sum_weights
      n_max_iterations epsilon it l st =
    (out, {| dimension := dimension st; logged := logged st ++ emitted |}).
Proof.
  destruct fuel as [|fuel].
  - exists OutOfFuel, []; intros st; simpl; now rewrite world_eta.
  - destruct (iteration self mean_ points weights n_points sum_weights)
      as [[s v]|e] eqn:Hb.
    + destruct (Rlt_dec s (epsilon * v)) as [Hlt|Hge].
      * exists (Returns mean_), []; intros st.
        rewrite (mean_loop_breaks s v Hb Hlt); now rewrite world_eta.
      * exists OutOfFuel, (warnings_between n_max_iterations it (S fuel)).
        intros st.
        now rewrite (mean_loop_spins s v Hb Hge).
    + exists (Raises e), []; intros st.
      rewrite (mean_loop_raises e Hb); now rewrite world_eta.
Qed.

End MeanLoop.

(** ** [norm], [dist] and [squared_dist] *)

Section NormDist.
Context {array matrix : Type} {np : Numpy array matrix}.
Variable self : MetricClass array matrix.

(** The guarded square root shared by [norm] and [dist]. *)
Lemma guarded_sqrt (msg : string) (x : R) :
  let r := if Rlt_dec x 0 then Raise (ValueError msg) else Ok (sqrt x) in
  (raises_ValueError r <-> x < 0) /\
  (~ x < 0 -> r = Ok (sqrt x) /\ 0 <= sqrt x /\ sqrt x * sqrt x = x).
Proof.
  simpl; destruct (Rlt_dec x 0) as [Hlt|Hge]; split.
  - split; [intros _; exact Hlt | intros _; now exists msg].
  - intros Hn; contradiction.
  - split; [intros [m Hm]; discriminate | intros Hlt; contradiction].
  - intros _; repeat split.
    + apply sqrt_pos.
    + apply sqrt_sqrt; lra.
Qed.

(** C5: whenever [squared_norm(v, p)] has a value, [norm(v, p)] raises a
    [ValueError] if and only if that value is negative, and otherwise
    returns its non-negative square root; [dist(a, b)] does the same with
    the value of [squared_dist(a, b)]. *)
Theorem norm_dist_domain_error :
  (forall vector base_point sq_norm,
      squared_norm self vector base_point = Ok sq_norm ->
      (raises_ValueError (norm self vector base_point) <-> sq_norm < 0) /\
      (~ sq_norm < 0 ->
       norm self vector base_point = Ok (sqrt sq_norm) /\
       0 <= sqrt sq_norm /\ sqrt sq_norm * sqrt sq_norm = sq_norm)) /\
  (forall point_a point_b sq_dist,
      squared_dist self point_a point_b = Ok sq_dist ->
      (raises_ValueError (dist self point_a point_b) <-> sq_dist < 0) /\
      (~ sq_dist < 0 ->
       dist self point_a point_b = Ok (sqrt sq_dist) /\
       0 <= sqrt sq_dist /\ sqrt sq_dist * sqrt sq_dist = sq_dist)).
Proof.
  split.
  - intros vector base_point sq_norm H. unfold norm; rewrite H; simpl.
    apply (guarded_sqrt norm_message).
  - intros point_a point_b sq_dist H. unfold dist; rewrite H; simpl.
    apply (guarded_sqrt dist_message).
Qed.

(** C6: [squared_dist(a, b)] is [squared_norm(log(b, a), a)]: the
    logarithm of [b] is taken at base point [a], and so is the squared
    norm; an exception of [log] is passed on. *)
Theorem squared_dist_base_point (point_a point_b : array) :
  squared_dist self point_a point_b =
  match log self point_b (Some point_a) with
  | Ok tangent_vec => squared_norm self tangent_vec (Some point_a)
  | Raise e => Raise e
  end.
Proof. reflexivity. Qed.

End NormDist.

(** ** [variance] *)

Section Variance.
Context {array matrix : Type} {np : Numpy array matrix}.
Variable self : MetricClass array matrix.

(** A two-dimensional array passes the shape line: [variance] is its two
    assertions followed by the loop. *)
Lemma variance_2d (base_point : array) (d : nat) (items : list array)
    (weights : list R) :
  variance self base_point (ndarray [d] items) weights =
  (_ <- assert (0 <? List.length items)%nat ;;
   _ <- assert (List.length items =? List.length weights)%nat ;;
   variance_loop self base_point (ndarray [d] items) weights
     (seq 0 (List.length items)) 0).
Proof. reflexivity. Qed.

(** An array that is not two-dimensional fails at the shape line, with
    any metric and any weights. *)
Lemma variance_not_2d (base_point : array) (item_shape : list nat)
    (items : list array) (weights : list R) :
  List.length item_shape <> 1%nat ->
  raises_ValueError (variance self base_point (ndarray item_shape items) weights).
Proof.
  intros H. unfold variance; simpl.
  destruct item_shape as [|d [|d' rest]]; simpl.
  - now eexists.
  - now contradiction H.
  - now eexists.
Qed.

(** Without a [squared_distance] attribute the first pass of the loop
    raises [AttributeError]. *)
Lemma variance_without_squared_distance (base_point : array) (d : nat)
    (items : list array) (weights : list R) :
  squared_distance self = None ->
  items <> [] -> List.length items = List.length weights ->
  exists msg,
    variance self base_point (ndarray [d] items) weights
    = Raise (AttributeError msg).
Proof.
  intros Hnone Hne Hlen. rewrite variance_2d.
  destruct items as [|p items]; [contradiction|].
  destruct weights as [|w weights]; [discriminate|].
  simpl in Hlen. injection Hlen as Hlen.
  simpl. rewrite Hlen, Nat.eqb_refl. simpl.
  unfold getattr_squared_distance; rewrite Hnone; simpl. now eexists.
Qed.

(** The loop over the indices [k, k+1, ...] when [squared_distance] is
    defined and returns on every point. *)
Lemma variance_loop_sum (f : array -> array -> result R) (base_point : array)
    (d : nat) (items : list array) (weights sq_dists : list R) :
  squared_distance self = Some f ->
  forall (rest_items : list array) (rest_weights rest_dists : list R) (k : nat) (acc : R),
    Forall2 (fun p s => f base_point p = Ok s) rest_items rest_dists ->
    List.length rest_weights = List.length rest_items ->
    skipn k items = rest_items -> skipn k weights = rest_weights ->
    variance_loop self base_point (ndarray [d] items) weights
      (seq k (List.length rest_items)) acc
    = Ok (fold_left (fun a wd => a + fst wd * snd wd)
            (combine rest_weights rest_dists) acc).
Proof.
  intros Hf rest_items; induction rest_items as [|p rest_items IH];
    intros rest_weights rest_dists k acc HF Hlen Hi Hw.
  - destruct rest_weights; [|discriminate]. inversion HF. reflexivity.
  - inversion HF as [|? s ? rest_dists' Hp HF']; subst rest_dists.
    destruct rest_weights as [|w rest_weights]; [discriminate|].
    simpl in Hlen; injection Hlen as Hlen.
    assert (Hnw : nth_error weights k = Some w).
    { rewrite <- (firstn_skipn k weights) at 1.
      assert (Hk : (k <= List.length weights)%nat).
      { destruct (Nat.le_gt_cases k (List.length weights)) as [|Hgt]; [assumption|].
        rewrite skipn_all2 in Hw by lia. discriminate. }
      rewrite nth_error_app2 by (rewrite firstn_length_le; lia).
      rewrite firstn_length_le, Nat.sub_diag, Hw by lia. reflexivity. }
    assert (Hni : nth_error items k = Some p).
    { rewrite <- (firstn_skipn k items) at 1.
      assert (Hk : (k <= List.length items)%nat).
      { destruct (Nat.le_gt_cases k (List.length items)) as [|Hgt]; [assumption|].
        rewrite skipn_all2 in Hi by lia. discriminate. }
      rewrite nth_error_app2 by (rewrite firstn_length_le; lia).
      rewrite firstn_length_le, Nat.sub_diag, Hi by lia. reflexivity. }
    cbn [List.length seq variance_loop].
    unfold getweight, getitem_row, getattr_squared_distance.
    rewrite Hnw, Hni, Hf. cbn [bind]. rewrite Hp. cbn [bind].
    rewrite (IH rest_weights rest_dists' (S k)); try assumption.
    + reflexivity.
    + replace (S k) with (1 + k)%nat by reflexivity.
      rewrite <- skipn_skipn, Hi. reflexivity.
    + replace (S k) with (1 + k)%nat by reflexivity.
      rewrite <- skipn_skipn, Hw. reflexivity.
Qed.

(** With [squared_distance] defined, returning [sq_dists[i]] on
    [points[i]], [variance] is the weighted sum of the [sq_dists]. *)
Lemma variance_with_squared_distance (f : array -> array -> result R)
    (base_point : array) (d : nat) (items : list array)
    (weights sq_dists : list R) :
  squared_distance self = Some f ->
  items <> [] -> List.length items = List.length weights ->
  Forall2 (fun p s => f base_point p = Ok s) items sq_dists ->
  variance self base_point (ndarray [d] items) weights
  = Ok (weighted_sum weights sq_dists).
Proof.
  intros Hf Hne Hlen HF. rewrite variance_2d.
  destruct items as [|p items]; [contradiction|].
  replace (0 <? List.length (p :: items))%nat with true by reflexivity.
  rewrite Hlen, Nat.eqb_refl. cbn [assert bind]. rewrite <- Hlen.
  now apply (variance_loop_sum f base_point d (p :: items) weights sq_dists Hf
               (p :: items) weights sq_dists 0 0).
Qed.

End Variance.

(** ** [mean] *)

Section Mean.
Context {array matrix : Type} {np : Numpy array matrix}.
Variable self : MetricClass array matrix.

(** [variance] raises on every [points] that is not a two-dimensional
    array, before it looks at anything else. *)
Lemma variance_needs_2d (base_point : array) (points : sequence array)
    (weights : list R) :
  is_2d points = false ->
  exists e, variance self base_point points weights = Raise e.
Proof.
  intros H. unfold variance.
  destruct points as [[|d [|d' rest]] items|items]; simpl in *;
    try discriminate; now eexists.
Qed.

(** So does the body of the loop of [mean], which calls [variance] on
    the same [points], if nothing raised earlier in the pass. *)
Lemma iteration_needs_2d (mean_ : array) (points : sequence array)
    (weights : list R) (n_points : nat) (sum_weights : R) :
  is_2d points = false ->
  exists e, iteration self mean_ points weights n_points sum_weights = Raise e.
Proof.
  intros H. unfold iteration.
  destruct (log self mean_ (Some mean_)) as [a|e]; [|now exists e].
  cbn [bind].
  destruct (tangent_mean_loop self mean_ points weights (seq 0 n_points)
              (zeros_like a)) as [t|e]; [|now exists e].
  cbn [bind].
  destruct (exp self (idiv t sum_weights) (Some mean_)) as [mean_next|e];
    [|now exists e].
  cbn [bind].
  destruct getattr_squared_distance as [f|e]; [|now exists e].
  cbn [bind].
  destruct (f mean_next mean_) as [sq_dist|e]; [|now exists e].
  cbn [bind].
  destruct (variance_needs_2d mean_next points weights H) as [e He].
  rewrite He. now exists e.
Qed.

(** A single point is returned before the loop. *)
Lemma mean_one_point (fuel : nat) (points : sequence array) (p : array)
    (weights : option (list R)) (n_max_iterations : Z) (epsilon : R)
    (st : world) :
  items_of points = [p] ->
  match weights with
  | None => True
  | Some w => List.length w = 1%nat
  end ->
  mean self fuel points weights n_max_iterations epsilon st = (Returns p, st).
Proof.
  intros Hp Hw. unfold mean, len, getitem. rewrite Hp.
  destruct weights as [w|]; simpl.
  - rewrite Hw. reflexivity.
  - reflexivity.
Qed.

(** C7: on a collection holding the single point [p], with no weights or
    with one weight of any value, [mean] returns [p] itself: for every
    metric (no method of it is called), with no fuel at all (no pass of
    the loop is made), and leaving the state as it was (nothing is
    logged).  The weight is not looked at. *)
Theorem mean_single_point (fuel : nat) (points : sequence array) (p : array)
    (weights : option (list R)) (n_max_iterations : Z) (epsilon : R)
    (st : world) :
  items_of points = [p] ->
  (weights = None \/ exists w, weights = Some [w]) ->
  mean self fuel points weights n_max_iterations epsilon st = (Returns p, st).
Proof.
  intros Hp [Hw|[w Hw]]; subst weights; now apply mean_one_point.
Qed.

(** C3: whenever [mean], called on at least two points, returns a value,
    that value is [points[0]]: the loop never assigns [mean], whatever
    the number of passes. *)
Theorem mean_returns_initial_point (fuel : nat) (points : sequence array)
    (weights : option (list R)) (n_max_iterations : Z) (epsilon : R)
    (st st' : world) (v : array) :
  (2 <= len points)%nat ->
  mean self fuel points weights n_max_iterations epsilon st = (Returns v, st') ->
  getitem points 0 = Ok v.
Proof.
  intros Hlen H. unfold mean in H.
  destruct (assert (0 <? len points)%nat); [|discriminate].
  destruct (assert _); [|discriminate].
  destruct (getitem points 0) as [mean_|e]; [|discriminate].
  destruct (Nat.eqb_spec (len points) 1) as [H1|_]; [lia|].
  apply mean_loop_returns in H. now subst.
Qed.

(** C8: a call of [variance] or of [mean] with no point at all, or with
    weights whose number is not the number of points, fails: it raises for
    every metric, with no fuel, and leaving the state as it was, that is
    before any method of the metric is called and before the loop.  The
    exception is [AssertionError], in [mean] always and in [variance]
    whenever [points] is a two-dimensional array (another [points] does
    not get past the shape line there). *)
Theorem invalid_arguments_fail_fast :
  (forall (base_point : array) (points : sequence array) (weights : list R),
      len points = 0%nat \/ len points <> List.length weights ->
      exists e,
        variance self base_point points weights = Raise e /\
        (is_2d points = true -> e = AssertionError)) /\
  (forall (fuel : nat) (points : sequence array) (weights : option (list R))
          (n_max_iterations : Z) (epsilon : R) (st : world),
      len points = 0%nat \/
      (exists w, weights = Some w /\ List.length w <> len points) ->
      mean self fuel points weights n_max_iterations epsilon st
      = (Raises AssertionError, st)).
Proof.
  split.
  - intros base_point points weights H.
    destruct (is_2d points) eqn:H2d.
    + exists AssertionError; split; [|reflexivity].
      destruct points as [[|d [|d' rest]] items|items]; try discriminate.
      rewrite variance_2d. unfold len in H; cbn [items_of] in H.
      destruct items as [|p items]; [reflexivity|].
      destruct H as [H|H]; [discriminate|].
      replace (0 <? List.length (p :: items))%nat with true by reflexivity.
      destruct (Nat.eqb_spec (List.length (p :: items)) (List.length weights));
        [contradiction | reflexivity].
    + destruct (variance_needs_2d base_point points weights H2d) as [e He].
      exists e; split; [assumption | discriminate].
  - intros fuel points weights n_max_iterations epsilon st H. unfold mean.
    destruct (len points) as [|n] eqn:Hn; [reflexivity|].
    destruct H as [H|[w [Hw Hne]]]; [discriminate|].
    subst weights. cbn [Nat.ltb Nat.leb assert].
    destruct (Nat.eqb_spec (S n) (List.length w)) as [Heq|_];
      [now symmetry in Heq | reflexivity].
Qed.

(** [mean] leaves [dimension] alone, and what it returns and logs does
    not depend on the state it starts from. *)
Lemma mean_frame (fuel : nat) (points : sequence array)
    (weights : option (list R)) (n_max_iterations : Z) (epsilon : R) :
  exists out emitted, forall st,
    mean self fuel points weights n_max_iterations epsilon st =
    (out, {| dimension := dimension st; logged := logged st ++ emitted |}).
Proof.
  unfold mean.
  destruct (assert (0 <? len points)%nat);
    [|exists (Raises e), []; intros st; now rewrite world_eta].
  destruct (assert _);
    [|exists (Raises e), []; intros st; now rewrite world_eta].
  destruct (getitem points 0) as [mean_|e];
    [|exists (Raises e), []; intros st; now rewrite world_eta].
  destruct (len points =? 1)%nat.
  - exists (Returns mean_), []; intros st; now rewrite world_eta.
  - apply mean_loop_frame.
Qed.

(** On two or more points that are not the rows of a two-dimensional
    array, [mean] returns no value. *)
Lemma mean_needs_2d (fuel : nat) (points : sequence array)
    (weights : option (list R)) (n_max_iterations : Z) (epsilon : R)
    (st : world) (v : array) :
  (2 <= len points)%nat -> is_2d points = false ->
  fst (mean self fuel points weights n_max_iterations epsilon st) <> Returns v.
Proof.
  intros Hlen H2d. unfold mean.
  destruct (assert (0 <? len points)%nat); [|discriminate].
  destruct (assert _); [|discriminate].
  destruct (getitem points 0) as [mean_|e]; [|discriminate].
  destruct (Nat.eqb_spec (len points) 1) as [H1|_]; [lia|].
  destruct fuel as [|fuel]; [discriminate|].
  match goal with
  | |- context [mean_loop _ _ _ _ ?w ?n ?sw _ _ _ _ _] =>
      destruct (iteration_needs_2d mean_ points w n sw H2d) as [e He]
  end.
  rewrite (mean_loop_raises self _ _ _ _ _ _ _ e He). discriminate.
Qed.

End Mean.

(** ** Purity of the derived operations *)

Section Purity.
Context {array matrix : Type} {np : Numpy array matrix}.
Variable self : MetricClass array matrix.

Lemma invoke_frame (fuel : nat) (c : call array) :
  exists out emitted, forall st,
    invoke self fuel c st =
    (out, {| dimension := dimension st; logged := logged st ++ emitted |}).
Proof.
  destruct c; cbn [invoke]; unfold float_call;
    try (eexists; exists []; intros st; now rewrite world_eta).
  destruct (mean_frame self fuel points weights n_max_iterations epsilon)
    as [out [emitted H]].
  exists (map_outcome Array out), emitted; intros st. now rewrite H.
Qed.

Lemma invoke_dimension (fuel : nat) (c : call array) (st : world) :
  dimension (snd (invoke self fuel c st)) = dimension st.
Proof.
  destruct (invoke_frame fuel c) as [out [emitted H]]. now rewrite H.
Qed.

(** C9: a call of any of the seven derived operations leaves
    [self.dimension] as it was; its outcome and the warnings it logs are
    determined by the metric's methods and the call's arguments alone, not
    by the state it starts from.  Consequently, after
    [__init__(self, dim)], [self.dimension] is [dim] after any run of
    calls. *)
Theorem derived_operations_are_pure :
  (forall (fuel : nat) (c : call array),
      exists out emitted, forall st,
        invoke self fuel c st =
        (out, {| dimension := dimension st; logged := logged st ++ emitted |})) /\
  (forall (dim : Z) (calls : list (nat * call array)) (st : world),
      dimension (invoke_all self calls (__init__ dim st)) = dim).
Proof.
  split; [exact invoke_frame|].
  intros dim calls st.
  change dim with (dimension (__init__ dim st)) at 2.
  generalize (__init__ dim st) as st0.
  induction calls as [|[fuel c] calls IH]; intros st0; cbn [invoke_all].
  - reflexivity.
  - now rewrite IH, invoke_dimension.
Qed.

End Purity.

(** ** The shape of [points] *)

Section Shapes.
Context {array matrix : Type} {np : Numpy array matrix}.
Variable self : MetricClass array matrix.

(** C10, as amended: [variance] takes [points] as a two-dimensional array
    only: on an array of any other number of dimensions it raises
    [ValueError] at its first line, for every metric and all weights.
    The checks of [mean] itself ask for no shape, and a sequence holding a
    single point is accepted whatever it is; but on two or more points
    each pass of the loop calls [variance] on them, so [mean] returns a
    value only if [points] is a two-dimensional array. *)
Theorem variance_needs_2d_and_mean_inherits_it :
  (forall (base_point : array) (item_shape : list nat) (items : list array)
          (weights : list R),
      List.length item_shape <> 1%nat ->
      raises_ValueError
        (variance self base_point (ndarray item_shape items) weights)) /\
  (forall (fuel : nat) (points : sequence array) (p : array)
          (weights : option (list R)) (n_max_iterations : Z) (epsilon : R)
          (st : world),
      items_of points = [p] ->
      match weights with
      | None => True
      | Some w => List.length w = 1%nat
      end ->
      mean self fuel points weights n_max_iterations epsilon st
      = (Returns p, st)) /\
  (forall (fuel : nat) (points : sequence array) (weights : option (list R))
          (n_max_iterations : Z) (epsilon : R) (st : world) (v : array),
      (2 <= len points)%nat -> is_2d points = false ->
      fst (mean self fuel points weights n_max_iterations epsilon st)
      <> Returns v).
Proof.
  repeat split.
  - intros; now apply variance_not_2d.
  - intros; now apply mean_one_point.
  - intros; now apply mean_needs_2d.
Qed.

End Shapes.

(** ** The warning *)

Lemma warnings_between_reached (n_max_iterations it : Z) (fuel : nat) :
  (it < n_max_iterations <= it + Z.of_nat fuel)%Z ->
  warnings_between n_max_iterations it fuel
  = [max_iterations_message n_max_iterations].
Proof.
  intros [H1 H2]. unfold warnings_between.
  destruct (Z.ltb_spec it n_max_iterations); [|lia].
  destruct (Z.leb_spec n_max_iterations (it + Z.of_nat fuel)); [|lia].
  reflexivity.
Qed.

Lemma warnings_between_not_reached (n_max_iterations it : Z) (fuel : nat) :
  (n_max_iterations <= it \/ it + Z.of_nat fuel < n_max_iterations)%Z ->
  warnings_between n_max_iterations it fuel = [].
Proof.
  intros H. unfold warnings_between.
  destruct (Z.ltb_spec it n_max_iterations),
           (Z.leb_spec n_max_iterations (it + Z.of_nat fuel));
    simpl; try reflexivity; lia.
Qed.

Example max_iterations_message_100 :
  max_iterations_message 100
  = "Maximum number of iterations 100 reached.The mean may be inaccurate"%string.
Proof. reflexivity. Qed.

(** ** The Euclidean plane *)

Example euclidean_squared_norm :
  squared_norm (EuclideanMetric 2) [3; 4] None = Ok 25.
Proof. cbn. f_equal. lra. Qed.

Example minkowski_squared_norm :
  squared_norm MinkowskiMetric [0; 1] None = Ok (-1).
Proof. cbn. f_equal. lra. Qed.

Example euclidean_squared_dist :
  squared_dist (EuclideanMetric 2) [0; 0] [1; 0] = Ok 1.
Proof. cbn. f_equal. lra. Qed.

(** The first pass of [mean] on [segment] with unit weights:
    [sq_dist = 1] and [variance = 2]. *)
Lemma segment_iteration :
  iteration (with_squared_distance (EuclideanMetric 2)) [0; 0] segment
    [1; 1] 2 (py_sum [1; 1]) = Ok (1, 2).
Proof. cbn. do 2 f_equal; field. Qed.

(** The first pass of [mean] on [triangle] with unit weights:
    [sq_dist = 13/9] and [variance = 14/3]. *)
Lemma triangle_iteration :
  iteration (with_squared_distance (EuclideanMetric 2)) [0; 0] triangle
    [1; 1; 1] 3 (py_sum [1; 1; 1]) = Ok (13 / 9, 14 / 3).
Proof. cbn. do 2 f_equal; field. Qed.

(** What that pass computes as [mean_next], and then drops: the
    centroid. *)
Lemma triangle_mean_next :
  (tangent_mean <- tangent_mean_loop (EuclideanMetric 2) [0; 0] triangle
                     [1; 1; 1] (seq 0 3) (zeros_like [0; 0]) ;;
   exp (EuclideanMetric 2) (idiv tangent_mean (py_sum [1; 1; 1])) (Some [0; 0]))
  = Ok [1; 2 / 3].
Proof. cbn. f_equal. f_equal; [field | f_equal; field]. Qed.


(** C1 (the code departs from it): on the Euclidean plane, with base
    point [(0, 0)], the single point [(1, 0)] and the weight [1], the
    weighted sum of the claim is [1 * squared_dist = 1], but [variance]
    raises [AttributeError]: it calls [self.squared_distance], a name the
    class does not define. *)
Theorem variance_calls_undefined_squared_distance :
  squared_dist (EuclideanMetric 2) [0; 0] [1; 0] = Ok 1 /\
  variance (EuclideanMetric 2) [0; 0] (ndarray [2%nat] [[1; 0]]) [1]
  = Raise (AttributeError "object has no attribute 'squared_distance'").
Proof. split; [exact euclidean_squared_dist | reflexivity]. Qed.

(** C2 (the code departs from it): on the Euclidean plane, with the two
    points [(0, 0)] and [(2, 0)], default weights, [n_max_iterations = 1]
    and the default tolerance, [mean] returns with no amount of fuel: the
    test fails at every pass, and pass number 1 logs the warning and goes
    on. *)
Theorem mean_runs_past_max_iterations (fuel : nat) :
  mean (with_squared_distance (EuclideanMetric 2)) fuel segment None 1 EPSILON
    (fresh 2)
  = (OutOfFuel,
     {| dimension := 2;
        logged :=
          match fuel with
          | O => []
          | S _ => ["Maximum number of iterations 1 reached.The mean may be inaccurate"%string]
          end |}).
Proof.
  unfold mean.
  cbn [len items_of segment List.length Nat.ltb Nat.leb assert np_ones repeat
       Nat.eqb getitem nth_error].
  rewrite (mean_loop_spins _ _ _ _ _ _ _ _ 1 2 segment_iteration).
  - destruct fuel.
    + reflexivity.
    + rewrite warnings_between_reached by lia. reflexivity.
  - unfold EPSILON; lra.
Qed.

(** C4 (the code departs from it): on the Euclidean plane, with the points
    [(0, 0)], [(2, 0)], [(1, 2)] and weights [1, 1, 1], [mean] does not
    return the centroid.  With the metric as described it raises
    [AttributeError] in its first pass; with [squared_distance] defined as
    [squared_dist] it returns with no amount of fuel. *)
Theorem mean_of_triangle_is_not_returned :
  (forall fuel st,
      mean (EuclideanMetric 2) (S fuel) triangle (Some [1; 1; 1]) 100 EPSILON st
      = (Raises (AttributeError "object has no attribute 'squared_distance'"), st)) /\
  (forall fuel st,
      fst (mean (with_squared_distance (EuclideanMetric 2)) fuel triangle
             (Some [1; 1; 1]) 100 EPSILON st)
      = OutOfFuel).
Proof.
  split; intros fuel st.
  - reflexivity.
  - unfold mean.
    cbn [len items_of triangle List.length Nat.ltb Nat.leb assert Nat.eqb
         getitem nth_error].
    rewrite (mean_loop_spins _ _ _ _ _ _ _ _ (13 / 9) (14 / 3) triangle_iteration).
    + reflexivity.
    + unfold EPSILON; lra.
Qed.

(** The base point of [squared_dist] is observable: with a metric that
    varies from point to point, exchanging the two points, or taking the
    squared norm at the other point, gives another value. *)
Example squared_dist_base_point_matters :
  squared_dist ConformalLineMetric 1 3 = Ok 4 /\
  squared_dist ConformalLineMetric 3 1 = Ok 12 /\
  (tangent_vec <- log ConformalLineMetric 3 (Some 1) ;;
   squared_norm ConformalLineMetric tangent_vec (Some 3)) = Ok 12.
Proof. repeat split; cbn; f_equal; lra. Qed.

(** ** Instances of the conditional theorems *)

(** C3 at work: with weights [10^6] and [1] the test holds at the first
    pass under the default tolerance, and [mean] returns [points[0]]. *)
Lemma mean_returns_initial_point_witness :
  (2 <= len segment)%nat /\
  mean (with_squared_distance (EuclideanMetric 2)) 1 segment
    (Some [1000000; 1]) 100 EPSILON (fresh 2)
  = (Returns [0; 0], fresh 2) /\
  getitem segment 0 = Ok [0; 0].
Proof.
  assert (Hlen : (2 <= len segment)%nat) by (cbn; lia).
  assert (Hmean :
    mean (with_squared_distance (EuclideanMetric 2)) 1 segment
      (Some [1000000; 1]) 100 EPSILON (fresh 2)
    = (Returns [0; 0], fresh 2)).
  { cbn. destruct (Rlt_dec _ _) as [_|H]; [reflexivity|].
    exfalso; apply H; unfold EPSILON; lra. }
  split; [exact Hlen | split; [exact Hmean |]].
  exact (mean_returns_initial_point (with_squared_distance (EuclideanMetric 2))
           1 segment (Some [1000000; 1]) 100 EPSILON (fresh 2) (fresh 2) [0; 0]
           Hlen Hmean).
Defined.

(** C5 at work: a norm on the Euclidean plane, the [ValueError] of a
    vector of negative squared norm, and a distance. *)
Lemma norm_dist_domain_error_witness :
  (squared_norm (EuclideanMetric 2) [3; 4] None = Ok 25 /\
   norm (EuclideanMetric 2) [3; 4] None = Ok (sqrt 25)) /\
  (squared_norm MinkowskiMetric [0; 1] None = Ok (-1) /\
   raises_ValueError (norm MinkowskiMetric [0; 1] None)) /\
  (squared_dist (EuclideanMetric 2) [0; 0] [1; 0] = Ok 1 /\
   dist (EuclideanMetric 2) [0; 0] [1; 0] = Ok (sqrt 1)).
Proof.
  split; [|split]; (split; [reflexivity || idtac|]).
  - exact euclidean_squared_norm.
  - apply (proj1 (norm_dist_domain_error (EuclideanMetric 2))
             [3; 4] None 25 euclidean_squared_norm); lra.
  - exact minkowski_squared_norm.
  - apply (proj1 (norm_dist_domain_error MinkowskiMetric)
             [0; 1] None (-1) minkowski_squared_norm); lra.
  - exact euclidean_squared_dist.
  - apply (proj2 (norm_dist_domain_error (EuclideanMetric 2))
             [0; 0] [1; 0] 1 euclidean_squared_dist); lra.
Defined.

(** C7 at work: the base class, a list holding one point, the weight 3
    and no fuel. *)
Lemma mean_single_point_witness :
  mean (RiemannianMetric vector matrix2) 0 (pylist [[5; 7]]) (Some [3])
    100 EPSILON (fresh 2)
  = (Returns [5; 7], fresh 2).
Proof.
  apply (mean_single_point (RiemannianMetric vector matrix2) 0
           (pylist [[5; 7]]) [5; 7] (Some [3]) 100 EPSILON (fresh 2)).
  - reflexivity.
  - right; exists 3; reflexivity.
Defined.

(** C8 at work, on the base class: one weight for two points in
    [variance]; no point, and one weight for two points, in [mean]. *)
Lemma invalid_arguments_fail_fast_witness :
  (exists e,
      variance (RiemannianMetric vector matrix2) [0; 0] segment [1] = Raise e /\
      (is_2d segment = true -> e = AssertionError)) /\
  mean (RiemannianMetric vector matrix2) 0 (pylist []) None 100 EPSILON (fresh 2)
  = (Raises AssertionError, fresh 2) /\
  mean (RiemannianMetric vector matrix2) 0 segment (Some [1]) 100 EPSILON (fresh 2)
  = (Raises AssertionError, fresh 2).
Proof.
  split; [|split].
  - apply (proj1 (invalid_arguments_fail_fast (RiemannianMetric vector matrix2))).
    right; cbn; lia.
  - apply (proj2 (invalid_arguments_fail_fast (RiemannianMetric vector matrix2))).
    left; reflexivity.
  - apply (proj2 (invalid_arguments_fail_fast (RiemannianMetric vector matrix2))).
    right; exists [1]; split; [reflexivity | cbn; lia].
Defined.

(** C10 as amended, at work: [variance] on a flat array, [mean] on a flat
    array of one point, [mean] on a list of two points. *)
Lemma variance_needs_2d_and_mean_inherits_it_witness :
  raises_ValueError (variance RealLineMetric 0 flat_pair [1; 1]) /\
  mean RealLineMetric 0 (ndarray [] [5]) None 100 EPSILON (fresh 1)
  = (Returns 5, fresh 1) /\
  fst (mean (with_squared_distance (EuclideanMetric 2)) 1 segment_list None 100
         EPSILON (fresh 2))
  <> Returns [0; 0].
Proof.
  split; [|split].
  - apply (proj1 (variance_needs_2d_and_mean_inherits_it RealLineMetric)).
    cbn; lia.
  - apply (proj1 (proj2 (variance_needs_2d_and_mean_inherits_it RealLineMetric))
             0%nat (ndarray [] [5]) 5 None).
    + reflexivity.
    + exact I.
  - apply (proj2 (proj2 (variance_needs_2d_and_mean_inherits_it
                           (with_squared_distance (EuclideanMetric 2))))).
    + cbn; lia.
    + reflexivity.
Defined.

(** C10, as first stated, fails: [mean] does not accept every non-empty
    sequence of points.  On a flat array of two points of the real line it
    raises the [ValueError] of the shape line of [variance], and on a
    Python list of two points of the plane the [AttributeError] of the
    same line. *)
Lemma mean_rejects_flat_array :
  len flat_pair = 2%nat /\
  mean (with_squared_distance RealLineMetric) 1 flat_pair None 100 EPSILON
    (fresh 1)
  = (Raises (ValueError "not enough values to unpack (expected 2)"), fresh 1) /\
  len segment_list = 2%nat /\
  mean (with_squared_distance (EuclideanMetric 2)) 1 segment_list None 100
    EPSILON (fresh 2)
  = (Raises (AttributeError "'list' object has no attribute 'shape'"), fresh 2).
Proof. repeat split. Qed.

(** * Further properties of the class *)

(** ** Exceptions of the abstract methods *)

Section Propagation.
Context {array matrix : Type} {np : Numpy array matrix}.
Variable self : MetricClass array matrix.

(** On two or more points, with weights of the right number, [mean]
    is its loop, entered with [points[0]]. *)
Lemma mean_enters_loop (fuel : nat) (points : sequence array)
    (weights : option (list R)) (n_max_iterations : Z) (epsilon : R)
    (st : world) (p : array) :
  (2 <= len points)%nat ->
  match weights with
  | None => True
  | Some w => List.length w = len points
  end ->
  getitem points 0 = Ok p ->
  mean self fuel points weights n_max_iterations epsilon st
  = mean_loop self fuel p points (weights_or_ones weights (len points))
      (len points) (py_sum (weights_or_ones weights (len points)))
      n_max_iterations epsilon 0%Z [] st.
Proof.
  intros Hlen Hw Hp.
  assert (Hl : List.length (weights_or_ones weights (len points)) = len points).
  { destruct weights as [w|]; [exact Hw | apply repeat_length]. }
  unfold mean. fold (weights_or_ones weights (len points)).
  rewrite Hl, Nat.eqb_refl, Hp.
  destruct (Nat.ltb_spec 0 (len points)); [|lia].
  destruct (Nat.eqb_spec (len points) 1); [lia|].
  reflexivity.
Qed.

(** X1: an exception of an abstract method comes out of every derived
    operation that reaches it, and it is reached first:
    [inner_product], [squared_norm] and [norm] raise what
    [inner_product_matrix] raises, whatever the vectors;
    [squared_dist] and [dist] raise what [log] raises, the matrix not being
    asked for; and [mean] on two or more points, with a pass to run, raises
    what [log(points[0], points[0])] raises, logging nothing. *)
Theorem abstract_method_exceptions_propagate :
  (forall (a b : array) (base_point : option array) (e : exn),
      inner_product_matrix self base_point = Raise e ->
      inner_product self a b base_point = Raise e /\
      squared_norm self a base_point = Raise e /\
      norm self a base_point = Raise e) /\
  (forall (a b : array) (e : exn),
      log self b (Some a) = Raise e ->
      squared_dist self a b = Raise e /\ dist self a b = Raise e) /\
  (forall (fuel : nat) (points : sequence array) (weights : option (list R))
          (n_max_iterations : Z) (epsilon : R) (st : world) (p : array) (e : exn),
      (2 <= len points)%nat ->
      match weights with
      | None => True
      | Some w => List.length w = len points
      end ->
      getitem points 0 = Ok p ->
      log self p (Some p) = Raise e ->
      mean self (S fuel) points weights n_max_iterations epsilon st
      = (Raises e, st)).
Proof.
  split; [|split].
  - intros a b base_point e H.
    unfold norm, squared_norm, inner_product. rewrite H. now repeat split.
  - intros a b e H. unfold dist, squared_dist. rewrite H. now split.
  - intros fuel points weights n_max_iterations epsilon st p e Hlen Hw Hp Hlog.
    rewrite (mean_enters_loop (S fuel) points weights n_max_iterations epsilon
               st p Hlen Hw Hp).
    apply mean_loop_raises.
    unfold iteration. now rewrite Hlog.
Qed.

(** ** A class without [squared_distance] *)

Lemma iteration_without_squared_distance (mean_ : array)
    (points : sequence array) (weights : list R) (n_points : nat)
    (sum_weights : R) :
  squared_distance self = None ->
  exists e, iteration self mean_ points weights n_points sum_weights = Raise e.
Proof.
  intros H. unfold iteration.
  destruct (log self mean_ (Some mean_)) as [a|e]; [|now exists e].
  cbn [bind].
  destruct (tangent_mean_loop self mean_ points weights (seq 0 n_points)
              (zeros_like a)) as [t|e]; [|now exists e].
  cbn [bind].
  destruct (exp self (idiv t sum_weights) (Some mean_)) as [mean_next|e];
    [|now exists e].
  cbn [bind]. unfold getattr_squared_distance. rewrite H. now eexists.
Qed.

(** X2: when the class of [self] defines no [squared_distance] (as
    [RiemannianMetric] and every subclass that only fills in the three
    abstract methods), [variance] returns on no input at all: every call
    raises. *)
Theorem variance_never_returns_without_squared_distance
    (base_point : array) (points : sequence array) (weights : list R) :
  squared_distance self = None ->
  exists e, variance self base_point points weights = Raise e.
Proof.
  intros Hnone. destruct (is_2d points) eqn:H2d.
  - destruct points as [[|d [|d' rest]] items|items]; try discriminate.
    destruct items as [|p items]; [now exists AssertionError|].
    destruct (Nat.eq_dec (List.length (p :: items)) (List.length weights))
      as [Heq|Hne].
    + destruct (variance_without_squared_distance self base_point d (p :: items)
                  weights Hnone) as [msg Hm]; [discriminate | exact Heq |].
      exists (AttributeError msg). exact Hm.
    + exists AssertionError. rewrite variance_2d.
      replace (0 <? List.length (p :: items))%nat with true by reflexivity.
      destruct (Nat.eqb_spec (List.length (p :: items)) (List.length weights));
        [contradiction | reflexivity].
  - now apply variance_needs_2d.
Qed.

(** X3: under the same condition a call of [mean] with a pass to run
    always ends, and it returns only when [points] holds a single point:
    on two or more points it raises in its first pass. *)
Theorem mean_without_squared_distance (fuel : nat) (points : sequence array)
    (weights : option (list R)) (n_max_iterations : Z) (epsilon : R)
    (st : world) :
  squared_distance self = None ->
  match fst (mean self (S fuel) points weights n_max_iterations epsilon st) with
  | Returns v => items_of points = [v]
  | Raises _ => True
  | OutOfFuel => False
  end.
Proof.
  intros Hnone. unfold mean.
  destruct (assert (0 <? len points)%nat); [|exact I].
  destruct (assert _); [|exact I].
  unfold getitem, len.
  destruct (items_of points) as [|p [|q rest]]; cbn [nth_error List.length Nat.eqb].
  - exact I.
  - reflexivity.
  - match goal with
    | |- context [mean_loop _ _ ?m ?pts ?w ?n ?sw _ _ _ _ _] =>
        destruct (iteration_without_squared_distance m pts w n sw Hnone)
          as [e He];
        rewrite (mean_loop_raises self m pts w n sw _ _ e He)
    end.
    exact I.
Qed.

End Propagation.

(** ** [variance] as a function of the weights *)

Section VarianceWeights.
Context {array matrix : Type} {np : Numpy array matrix}.
Variable self : MetricClass array matrix.

(** X4: when the class of [self] defines [squared_distance] and it
    returns [sq_dists[i]] on [points[i]] for every row of a non-empty
    two-dimensional array with as many rows as weights, [variance] returns
    the sum of the [weights[i] * sq_dists[i]], accumulated from [0] in
    index order. *)
Theorem variance_is_weighted_sum (f : array -> array -> result R)
    (base_point : array) (d : nat) (items : list array)
    (weights sq_dists : list R) :
  squared_distance self = Some f ->
  items <> [] -> List.length items = List.length weights ->
  Forall2 (fun p s => f base_point p = Ok s) items sq_dists ->
  variance self base_point (ndarray [d] items) weights
  = Ok (weighted_sum weights sq_dists).
Proof. apply variance_with_squared_distance. Qed.






End VarianceWeights.

(** ** The one pass of [mean] that counts *)

Section MeanOnePass.
Context {array matrix : Type} {np : Numpy array matrix}.
Variable self : MetricClass array matrix.

(** The loop with some fuel, against the loop with one pass of fuel and
    another cap. *)
Lemma mean_loop_decided_by_first_pass (fuel : nat) (mean_ : array)
    (points : sequence array) (weights : list R) (n_points : nat)
    (sum_weights : R) (n1 n2 : Z) (epsilon : R) (st1 st2 : world) :
  fst (mean_loop self (S fuel) mean_ points weights n_points sum_weights
         n1 epsilon 0%Z [] st1)
  = fst (mean_loop self 1 mean_ points weights n_points sum_weights
           n2 epsilon 0%Z [] st2).
Proof.
  destruct (iteration self mean_ points weights n_points sum_weights)
    as [[s v]|e] eqn:Hb.
  - destruct (Rlt_dec s (epsilon * v)) as [Hlt|Hge].
    + now rewrite !(mean_loop_breaks self _ _ _ _ _ _ _ s v Hb Hlt).
    + now rewrite !(mean_loop_spins self _ _ _ _ _ _ _ s v Hb Hge).
  - now rewrite !(mean_loop_raises self _ _ _ _ _ _ _ e Hb).
Qed.

(** X7: the outcome of [mean] is decided by its first pass, and
    [n_max_iterations] has no part in it: with any fuel for at least one
    pass and any cap, [mean] returns, raises or is still running exactly as
    it does with fuel for one pass and any other cap.  A call that does not
    end in its first iteration never ends. *)
Theorem mean_decided_by_first_pass (fuel : nat) (points : sequence array)
    (weights : option (list R)) (n1 n2 : Z) (epsilon : R) (st1 st2 : world) :
  fst (mean self (S fuel) points weights n1 epsilon st1)
  = fst (mean self 1 points weights n2 epsilon st2).
Proof.
  unfold mean.
  destruct (assert (0 <? len points)%nat); [|reflexivity].
  destruct (assert _); [|reflexivity].
  destruct (getitem points 0) as [mean_|e]; [|reflexivity].
  destruct (len points =? 1)%nat; [reflexivity|].
  apply mean_loop_decided_by_first_pass.
Qed.

(** X8: a call of [mean] that ends, by returning or by raising, has
    logged nothing and left the state as it was.  A call that is still
    running after [fuel] passes has logged the warning exactly when
    [1 <= n_max_iterations <= fuel], and then once: the warning is only
    ever seen from a call that does not end. *)
Theorem mean_warns_only_when_it_does_not_end (fuel : nat)
    (points : sequence array) (weights : option (list R))
    (n_max_iterations : Z) (epsilon : R) (st : world) :
  let r := mean self fuel points weights n_max_iterations epsilon st in
  (fst r <> OutOfFuel -> snd r = st) /\
  (fst r = OutOfFuel ->
   dimension (snd r) = dimension st /\
   logged (snd r) =
   logged st ++
   (if ((1 <=? n_max_iterations) && (n_max_iterations <=? Z.of_nat fuel))%Z
    then [max_iterations_message n_max_iterations] else [])).
Proof.
  cbn zeta. unfold mean.
  destruct (assert (0 <? len points)%nat);
    [|split; [reflexivity | discriminate]].
  destruct (assert _); [|split; [reflexivity | discriminate]].
  destruct (getitem points 0) as [mean_|e];
    [|split; [reflexivity | discriminate]].
  destruct (len points =? 1)%nat; [split; [reflexivity | discriminate]|].
  match goal with
  | |- context [mean_loop _ _ ?m ?pts ?w ?n ?sw _ _ _ _ _] =>
      destruct (iteration self m pts w n sw) as [[s v]|e] eqn:Hb
  end.
  - destruct (Rlt_dec s (epsilon * v)) as [Hlt|Hge].
    + destruct fuel as [|fuel].
      * cbn [mean_loop fst snd]. split; [now intros H|].
        intros _. split; [reflexivity|].
        destruct (Z.leb_spec 1 n_max_iterations),
                 (Z.leb_spec n_max_iterations (Z.of_nat 0));
          cbn [andb]; try (now rewrite app_nil_r); lia.
      * rewrite (mean_loop_breaks self _ _ _ _ _ _ _ s v Hb Hlt).
        split; [reflexivity | discriminate].
    + rewrite (mean_loop_spins self _ _ _ _ _ _ _ s v Hb Hge).
      cbn [fst snd dimension logged]. split; [now intros H|].
      intros _. split; [reflexivity|]. f_equal.
      unfold warnings_between. rewrite Z.add_0_l.
      destruct (Z.ltb_spec 0 n_max_iterations), (Z.leb_spec 1 n_max_iterations);
        try lia; reflexivity.
  - destruct fuel as [|fuel].
    + cbn [mean_loop fst snd]. split; [now intros H|].
      intros _. split; [reflexivity|].
      destruct (Z.leb_spec 1 n_max_iterations),
               (Z.leb_spec n_max_iterations (Z.of_nat 0));
        cbn [andb]; try (now rewrite app_nil_r); lia.
    + rewrite (mean_loop_raises self _ _ _ _ _ _ _ e Hb).
      split; [reflexivity | discriminate].
Qed.

End MeanOnePass.

(** X9: the stopping test is strict.  When the first pass of [mean] on
    two or more points finds a zero [variance] and a [sq_dist] that is not
    negative (as it does when all the points are the same), the test
    fails, and [mean] does not return, with whatever fuel, tolerance and
    cap. *)
Theorem mean_never_returns_on_zero_variance
    {array matrix : Type} {np : Numpy array matrix}
    (self : MetricClass array matrix) (fuel : nat) (points : sequence array)
    (weights : option (list R)) (n_max_iterations : Z) (epsilon : R)
    (st : world) (p : array) (sq_dist : R) :
  (2 <= len points)%nat ->
  match weights with
  | None => True
  | Some w => List.length w = len points
  end ->
  getitem points 0 = Ok p ->
  iteration self p points (weights_or_ones weights (len points)) (len points)
    (py_sum (weights_or_ones weights (len points)))
  = Ok (sq_dist, 0) ->
  0 <= sq_dist ->
  fst (mean self fuel points weights n_max_iterations epsilon st) = OutOfFuel.
Proof.
  intros Hlen Hw Hp Hit Hs.
  rewrite (mean_enters_loop self fuel points weights n_max_iterations epsilon
             st p Hlen Hw Hp).
  rewrite (mean_loop_spins self _ _ _ _ _ _ _ sq_dist 0 Hit).
  - reflexivity.
  - rewrite Rmult_0_r. lra.
Qed.

(** ** Instances of the further properties *)


(** The squared distances from [(1, 0)] to the rows of [triangle]. *)
Lemma triangle_squared_dists :
  Forall2 (fun p s => squared_dist (EuclideanMetric 2) [1; 0] p = Ok s)
    [[0; 0]; [2; 0]; [1; 2]] [1; 1; 4].
Proof. repeat constructor; cbn; f_equal; lra. Qed.

(** [mean] on [segment] with unit weights and the cap 1 is still running
    after three passes, the warning logged. *)
Lemma segment_mean_spins :
  mean (with_squared_distance (EuclideanMetric 2)) 3 segment None 1 EPSILON
    (fresh 2)
  = (OutOfFuel,
     {| dimension := 2; logged := [max_iterations_message 1] |}).
Proof.
  unfold mean.
  cbn [len items_of segment List.length Nat.ltb Nat.leb assert np_ones repeat
       Nat.eqb getitem nth_error].
  rewrite (mean_loop_spins _ _ _ _ _ _ _ _ 1 2 segment_iteration).
  - rewrite warnings_between_reached by lia. reflexivity.
  - unfold EPSILON; lra.
Qed.

(** The first pass of [mean] on two copies of [(1, 2)]: [sq_dist = 0] and
    [variance = 0], whatever the two weights. *)
Lemma twin_iteration (w : list R) :
  List.length w = 2%nat ->
  iteration (with_squared_distance (EuclideanMetric 2)) [1; 2]
    (ndarray [2%nat] [[1; 2]; [1; 2]]) w 2 (py_sum w) = Ok (0, 0).
Proof.
  destruct w as [|w0 [|w1 [|w2 rest]]]; try discriminate. intros _.
  cbn. do 2 f_equal; unfold Rdiv; ring.
Qed.

(** X1 at work: the base class. *)
Lemma abstract_method_exceptions_propagate_witness :
  norm (RiemannianMetric vector matrix2) [3; 4] None
  = Raise (NotImplementedError
             "The computation of the inner product matrix is not implemented.") /\
  dist (RiemannianMetric vector matrix2) [0; 0] [1; 0]
  = Raise (NotImplementedError "The Riemannian logarithm is not implemented.") /\
  mean (RiemannianMetric vector matrix2) 1 segment None 100 EPSILON (fresh 2)
  = (Raises (NotImplementedError "The Riemannian logarithm is not implemented."),
     fresh 2).
Proof.
  split; [|split].
  - apply (proj1 (abstract_method_exceptions_propagate
                    (RiemannianMetric vector matrix2)) [3; 4] [3; 4] None).
    reflexivity.
  - apply (proj1 (proj2 (abstract_method_exceptions_propagate
                           (RiemannianMetric vector matrix2))) [0; 0] [1; 0]).
    reflexivity.
  - apply (proj2 (proj2 (abstract_method_exceptions_propagate
                           (RiemannianMetric vector matrix2)))
             0%nat segment None 100%Z EPSILON (fresh 2) [0; 0]).
    + cbn; lia.
    + exact I.
    + reflexivity.
    + reflexivity.
Defined.

(** X2 at work: the Euclidean plane, on valid arguments. *)
Lemma variance_never_returns_without_squared_distance_witness :
  exists e, variance (EuclideanMetric 2) [1; 0] triangle [1; 2; 3] = Raise e.
Proof.
  apply (variance_never_returns_without_squared_distance (EuclideanMetric 2)).
  reflexivity.
Defined.

(** X3 at work: the Euclidean plane, on three points. *)
Lemma mean_without_squared_distance_witness :
  match fst (mean (EuclideanMetric 2) 1 triangle None 100 EPSILON (fresh 2)) with
  | Returns v => items_of triangle = [v]
  | Raises _ => True
  | OutOfFuel => False
  end.
Proof.
  apply (mean_without_squared_distance (EuclideanMetric 2) 0 triangle None 100
           EPSILON (fresh 2)).
  reflexivity.
Defined.

(** X4 at work: the variance of [triangle] at [(1, 0)]. *)
Lemma variance_is_weighted_sum_witness :
  variance (with_squared_distance (EuclideanMetric 2)) [1; 0] triangle [1; 2; 3]
  = Ok (weighted_sum [1; 2; 3] [1; 1; 4]).
Proof.
  apply (variance_is_weighted_sum (with_squared_distance (EuclideanMetric 2))
           (squared_dist (EuclideanMetric 2)) [1; 0] 2
           [[0; 0]; [2; 0]; [1; 2]] [1; 2; 3] [1; 1; 4]).
  - reflexivity.
  - discriminate.
  - reflexivity.
  - exact triangle_squared_dists.
Defined.



(** X8 at work: a call that returns, and a call that is still running
    after three passes with the cap 1. *)
Lemma mean_warns_only_when_it_does_not_end_witness :
  snd (mean (RiemannianMetric vector matrix2) 0 (pylist [[5; 7]]) None 1 EPSILON
         (fresh 2))
  = fresh 2 /\
  logged (snd (mean (with_squared_distance (EuclideanMetric 2)) 3 segment None 1
                 EPSILON (fresh 2)))
  = [max_iterations_message 1].
Proof.
  split.
  - apply (proj1 (mean_warns_only_when_it_does_not_end
                    (RiemannianMetric vector matrix2) 0 (pylist [[5; 7]]) None 1
                    EPSILON (fresh 2))).
    discriminate.
  - apply (proj2 (mean_warns_only_when_it_does_not_end
                    (with_squared_distance (EuclideanMetric 2)) 3 segment None 1
                    EPSILON (fresh 2))).
    now rewrite segment_mean_spins.
Defined.

(** X9 at work: the mean of two copies of [(1, 2)] on the Euclidean
    plane. *)
Lemma mean_never_returns_on_zero_variance_witness :
  fst (mean (with_squared_distance (EuclideanMetric 2)) 1000
         (ndarray [2%nat] [[1; 2]; [1; 2]]) None 100 EPSILON (fresh 2))
  = OutOfFuel.
Proof.
  apply (mean_never_returns_on_zero_variance
           (with_squared_distance (EuclideanMetric 2)) 1000
           (ndarray [2%nat] [[1; 2]; [1; 2]]) None 100 EPSILON (fresh 2)
           [1; 2] 0).
  - cbn; lia.
  - exact I.
  - reflexivity.
  - exact (twin_iteration [1; 1] eq_refl).
  - lra.
Defined.

(** * The geodesic grid of [Visualizer2D] *)

Section DrawingLemmas.
Context {axes : Type}.

Lemma for_each_app {A : Type} (f : A -> drawing axes unit) (l1 l2 : list A)
    (ax : axes) :
  for_each f (l1 ++ l2) ax = and_then (for_each f l1) (for_each f l2) ax.
Proof.
  revert ax; induction l1 as [|x l1 IH]; intros ax; cbn [app for_each].
  - reflexivity.
  - unfold and_then in *. destruct (f x ax) as [[[]|e] ax'].
    + apply IH.
    + reflexivity.
Qed.

End DrawingLemmas.

Section DrawingLoops.
Context {axes : Type}.

Lemma for_each_flat_map {A B : Type} (g : A -> drawing axes unit)
    (f : B -> drawing axes unit) (h : A -> list B) (l : list A) :
  (forall x, In x l -> forall ax, g x ax = for_each f (h x) ax) ->
  forall ax, for_each g l ax = for_each f (flat_map h l) ax.
Proof.
  induction l as [|x l IH]; intros H ax; cbn [for_each flat_map].
  - reflexivity.
  - rewrite for_each_app. unfold and_then.
    rewrite (H x (or_introl eq_refl)).
    destruct (for_each f (h x) ax) as [[[]|e] ax']; [|reflexivity].
    apply IH. intros y Hy. apply H. now right.
Qed.

(** A loop that raises at some item keeps what the items before it
    drew. *)
Lemma for_each_stops {A : Type} (f : A -> drawing axes unit)
    (before after : list A) (x : A) (e : exn) (ax ax1 ax2 : axes) :
  for_each f before ax = (Ok tt, ax1) ->
  f x ax1 = (Raise e, ax2) ->
  for_each f (before ++ x :: after) ax = (Raise e, ax2).
Proof.
  intros Hb Hx. rewrite for_each_app. unfold and_then. rewrite Hb.
  cbn [for_each]. unfold and_then. now rewrite Hx.
Qed.

End DrawingLoops.

Lemma count_next_indices (v n : nat) :
  (n <= v)%nat ->
  list_sum (map (fun j => if (S j <? v)%nat then 1%nat else 0%nat) (seq 0 n))
  = Nat.min n (v - 1).
Proof.
  induction n as [|n IH]; intros H.
  - reflexivity.
  - rewrite seq_S, map_app, list_sum_app, IH by lia. cbn [map Nat.add].
    destruct (Nat.ltb_spec (S n) v); unfold list_sum; cbn [fold_right]; lia.
Qed.

Lemma grid_edges_length (h_points v_points : vector) :
  List.length (grid_edges h_points v_points)
  = ((List.length h_points - 1) * List.length v_points
     + List.length h_points * (List.length v_points - 1))%nat.
Proof.
  unfold grid_edges.
  set (h := List.length h_points). set (v := List.length v_points).
  rewrite length_flat_map.
  assert (Hrow : forall i,
    List.length
      (flat_map
         (fun j =>
            (if (S i <? h)%nat
             then [([nth i h_points 0; nth j v_points 0],
                    [nth (S i) h_points 0; nth j v_points 0])] else [])
            ++
            (if (S j <? v)%nat
             then [([nth i h_points 0; nth j v_points 0],
                    [nth i h_points 0; nth (S j) v_points 0])] else []))
         (seq 0 v))
    = ((if (S i <? h)%nat then v else 0) + (v - 1))%nat).
  { intros i. rewrite length_flat_map.
    rewrite (map_ext _ (fun j => ((if (S i <? h)%nat then 1 else 0)
                                  + (if (S j <? v)%nat then 1 else 0))%nat)).
    2:{ intros j. rewrite length_app.
        destruct (S i <? h)%nat, (S j <? v)%nat; reflexivity. }
    assert (Hsum : forall (c : nat) (g : nat -> nat) (l : list nat),
               list_sum (map (fun j => (c + g j)%nat) l)
               = (c * List.length l + list_sum (map g l))%nat).
    { intros c g l; induction l as [|a l IHl]; cbn [map List.length].
      - cbn. lia.
      - change (list_sum ((c + g a)%nat :: map (fun j => (c + g j)%nat) l))
          with ((c + g a) + list_sum (map (fun j => (c + g j)%nat) l))%nat.
        change (list_sum (g a :: map g l)) with (g a + list_sum (map g l))%nat.
        rewrite IHl. lia. }
    rewrite Hsum, length_seq, count_next_indices by lia.
    destruct (S i <? h)%nat; lia. }
  rewrite (map_ext _ (fun i => ((if (S i <? h)%nat then v else 0) + (v - 1))%nat))
    by exact Hrow.
  assert (Hsum : forall n, (n <= h)%nat ->
    list_sum (map (fun i => ((if (S i <? h)%nat then v else 0) + (v - 1))%nat)
                (seq 0 n))
    = (Nat.min n (h - 1) * v + n * (v - 1))%nat).
  { induction n as [|n IH]; intros Hn.
    - reflexivity.
    - rewrite seq_S, map_app, list_sum_app, IH by lia.
      cbn [map Nat.add].
      change (list_sum [((if (S n <? h)%nat then v else 0) + (v - 1))%nat])
        with (((if (S n <? h)%nat then v else 0) + (v - 1)) + 0)%nat.
      destruct (Nat.ltb_spec (S n) h).
      + replace (Nat.min (S n) (h - 1)) with (S (Nat.min n (h - 1))) by lia. lia.
      + replace (Nat.min (S n) (h - 1)) with (Nat.min n (h - 1)) by lia. lia. }
  rewrite Hsum by lia.
  replace (Nat.min h (h - 1)) with (h - 1)%nat by lia. reflexivity.
Qed.

Section Grid.
Context {axes curve row : Type} {plt : Plotting axes curve row}.

Lemma grid_at_make_grid (h_points v_points : vector) (i j : nat) :
  (i < List.length h_points)%nat -> (j < List.length v_points)%nat ->
  grid_at (make_grid h_points v_points) i j
  = Ok [nth i h_points 0; nth j v_points 0].
Proof.
  intros Hi Hj. unfold grid_at, make_grid.
  rewrite nth_error_map, (nth_error_nth' h_points 0 Hi). cbn [option_map].
  rewrite nth_error_map, (nth_error_nth' v_points 0 Hj). reflexivity.
Qed.

Lemma plot_edge_is_plot_pair (h_points v_points : vector) (i j i' j' : nat)
    (ax : axes) :
  (i < List.length h_points)%nat -> (j < List.length v_points)%nat ->
  (i' < List.length h_points)%nat -> (j' < List.length v_points)%nat ->
  plot_edge (make_grid h_points v_points) i j i' j' ax
  = plot_pair ([nth i h_points 0; nth j v_points 0],
               [nth i' h_points 0; nth j' v_points 0]) ax.
Proof.
  intros Hi Hj Hi' Hj'. unfold plot_edge.
  now rewrite !grid_at_make_grid by assumption.
Qed.

(** The two loops of [plot_grid] draw the pairs of [grid_edges], in
    order. *)
Lemma grid_loops_draw_grid_edges (h_points v_points : vector) (ax : axes) :
  for_each
    (fun i =>
       for_each
         (grid_cell (make_grid h_points v_points) (List.length h_points)
            (List.length v_points) i)
         (seq 0 (List.length v_points)))
    (seq 0 (List.length h_points)) ax
  = for_each plot_pair (grid_edges h_points v_points) ax.
Proof.
  unfold grid_edges. revert ax.
  apply for_each_flat_map. intros i Hi.
  apply for_each_flat_map. intros j Hj ax.
  apply in_seq in Hi. apply in_seq in Hj.
  unfold grid_cell, and_then.
  destruct (Nat.ltb_spec i (List.length h_points - 1)),
           (Nat.ltb_spec (S i) (List.length h_points)); try lia;
    destruct (Nat.ltb_spec j (List.length v_points - 1)),
             (Nat.ltb_spec (S j) (List.length v_points)); try lia;
    cbn [app for_each]; unfold and_then, done;
    rewrite ?Nat.add_1_r;
    repeat (rewrite ?plot_edge_is_plot_pair by lia;
            match goal with
            | |- context [plot_pair ?pq ?a] =>
                destruct (plot_pair pq a) as [[[]|?] ?]
            end);
    reflexivity.
Qed.

(** X10: when its arguments give the grid abscissae [h_points] and
    ordinates [v_points], [plot_grid] calls [plot_geodesic] once for each
    pair of [grid_edges h_points v_points], in that order, stopping at the
    first call that raises; these pairs number
    [(h - 1) * v + h * (v - 1)] for [h] abscissae and [v] ordinates. *)
Theorem plot_grid_draws_grid_edges (lower_left upper_right : vector)
    (n_cells : option (scalar_or_list Z)) (steps : option (scalar_or_list R))
    (h_points v_points : vector) :
  grid_points lower_left upper_right n_cells steps = Ok (h_points, v_points) ->
  (forall ax,
      plot_grid lower_left upper_right n_cells steps ax
      = for_each plot_pair (grid_edges h_points v_points) ax) /\
  List.length (grid_edges h_points v_points)
  = ((List.length h_points - 1) * List.length v_points
     + List.length h_points * (List.length v_points - 1))%nat.
Proof.
  intros H. split.
  - intros ax. unfold plot_grid. rewrite H. apply grid_loops_draw_grid_edges.
  - apply grid_edges_length.
Qed.

(** X11: the pairs [plot_grid] joins are exactly the pairs of
    neighbours of the grid: a point [(h_points[i], v_points[j])] with the
    point of the next abscissa and the same ordinate, or of the same
    abscissa and the next ordinate.  No other pair is joined, and none in
    the opposite direction or along a diagonal. *)
Theorem plot_grid_joins_neighbours (lower_left upper_right : vector)
    (n_cells : option (scalar_or_list Z)) (steps : option (scalar_or_list R))
    (h_points v_points : vector) :
  grid_points lower_left upper_right n_cells steps = Ok (h_points, v_points) ->
  exists edges,
    (forall ax,
        plot_grid lower_left upper_right n_cells steps ax
        = for_each plot_pair edges ax) /\
    (forall p q,
        In (p, q) edges <->
        exists i j,
          (i < List.length h_points)%nat /\ (j < List.length v_points)%nat /\
          p = [nth i h_points 0; nth j v_points 0] /\
          (((S i < List.length h_points)%nat /\
            q = [nth (S i) h_points 0; nth j v_points 0]) \/
           ((S j < List.length v_points)%nat /\
            q = [nth i h_points 0; nth (S j) v_points 0]))).
Proof.
  intros H. exists (grid_edges h_points v_points). split.
  - intros ax. unfold plot_grid. rewrite H. apply grid_loops_draw_grid_edges.
  - intros p q. unfold grid_edges. rewrite in_flat_map. split.
    + intros [i [Hi Hin]]. apply in_flat_map in Hin. destruct Hin as [j [Hj Hin]].
      apply in_seq in Hi. apply in_seq in Hj.
      exists i, j. split; [lia|]. split; [lia|].
      apply in_app_or in Hin. destruct Hin as [Hin|Hin].
      * destruct (Nat.ltb_spec (S i) (List.length h_points)); [|contradiction].
        destruct Hin as [Heq|[]]. inversion Heq. split; [reflexivity|].
        left. now split.
      * destruct (Nat.ltb_spec (S j) (List.length v_points)); [|contradiction].
        destruct Hin as [Heq|[]]. inversion Heq. split; [reflexivity|].
        right. now split.
    + intros [i [j [Hi [Hj [Hp Hq]]]]]. exists i. split; [apply in_seq; lia|].
      apply in_flat_map. exists j. split; [apply in_seq; lia|].
      apply in_or_app. subst p. destruct Hq as [[Hlt Hq]|[Hlt Hq]]; subst q.
      * left. destruct (Nat.ltb_spec (S i) (List.length h_points)); [|lia].
        now left.
      * right. destruct (Nat.ltb_spec (S j) (List.length v_points)); [|lia].
        now left.
Qed.

(** X12: [plot_grid] is not all or nothing.  Arguments that give no grid
    make it raise with the axes untouched; but when the call of
    [plot_geodesic] for some pair raises, the geodesics of the pairs before
    it stay drawn on the axes the exception leaves behind. *)
Theorem plot_grid_keeps_what_it_drew (lower_left upper_right : vector)
    (n_cells : option (scalar_or_list Z)) (steps : option (scalar_or_list R)) :
  (forall e ax,
      grid_points lower_left upper_right n_cells steps = Raise e ->
      plot_grid lower_left upper_right n_cells steps ax = (Raise e, ax)) /\
  (forall h_points v_points before after pq e ax ax1 ax2,
      grid_points lower_left upper_right n_cells steps = Ok (h_points, v_points) ->
      grid_edges h_points v_points = before ++ pq :: after ->
      for_each plot_pair before ax = (Ok tt, ax1) ->
      plot_pair pq ax1 = (Raise e, ax2) ->
      plot_grid lower_left upper_right n_cells steps ax = (Raise e, ax2)).
Proof.
  split.
  - intros e ax H. unfold plot_grid. now rewrite H.
  - intros h_points v_points before after pq e ax ax1 ax2 H Hedges Hb Hx.
    unfold plot_grid. rewrite H, grid_loops_draw_grid_edges, Hedges.
    now apply for_each_stops with (ax1 := ax1).
Qed.

End Grid.

(** ** Instances of the properties of the grid *)

(** X10 at work: the default [n_cells = [5, 5]] on the unit square, 36
    grid points joined by 60 geodesics. *)
Lemma plot_grid_draws_grid_edges_witness :
  grid_points [0; 0] [1; 1] (Some (a_list [5; 5]%Z)) None
  = Ok (linspace_values 0 1 6, linspace_values 0 1 6) /\
  (forall ax : list (list vector),
      plot_grid [0; 0] [1; 1] (Some (a_list [5; 5]%Z)) None ax
      = for_each plot_pair
          (grid_edges (linspace_values 0 1 6) (linspace_values 0 1 6)) ax) /\
  List.length (grid_edges (linspace_values 0 1 6) (linspace_values 0 1 6))
  = 60%nat.
Proof.
  split; [reflexivity|].
  exact (plot_grid_draws_grid_edges [0; 0] [1; 1] (Some (a_list [5; 5]%Z)) None
           (linspace_values 0 1 6) (linspace_values 0 1 6) eq_refl).
Defined.

(** X11 at work: [n_cells = 1] on the unit square. *)
Lemma plot_grid_joins_neighbours_witness :
  exists edges,
    (forall ax : list (list vector),
        plot_grid [0; 0] [1; 1] (Some (a_scalar 1%Z)) None ax
        = for_each plot_pair edges ax) /\
    (forall p q,
        In (p, q) edges <->
        exists i j,
          (i < 2)%nat /\ (j < 2)%nat /\
          p = [nth i (linspace_values 0 1 2) 0; nth j (linspace_values 0 1 2) 0] /\
          (((S i < 2)%nat /\
            q = [nth (S i) (linspace_values 0 1 2) 0;
                 nth j (linspace_values 0 1 2) 0]) \/
           ((S j < 2)%nat /\
            q = [nth i (linspace_values 0 1 2) 0;
                 nth (S j) (linspace_values 0 1 2) 0]))).
Proof.
  exact (plot_grid_joins_neighbours [0; 0] [1; 1] (Some (a_scalar 1%Z)) None
           (linspace_values 0 1 2) (linspace_values 0 1 2) eq_refl).
Defined.

(** X12 at work: with neither [n_cells] nor [steps] nothing is drawn;
    on an [Axes] object with room for three lines, the grid of four edges
    raises at the fourth and leaves three lines. *)
Lemma plot_grid_keeps_what_it_drew_witness :
  plot_grid [0; 0] [1; 1] None None ([] : list (list vector))
  = (Raise (ValueError
              "Either the number of cells of the grid or the steps must input."),
     []) /\
  exists ax2,
    plot_grid (plt := crowded_plotting) [0; 0] [1; 1] (Some (a_scalar 1%Z)) None []
    = (Raise (ValueError "no room for another line"), ax2) /\
    List.length ax2 = 3%nat.
Proof.
  split.
  - apply (proj1 (plot_grid_keeps_what_it_drew [0; 0] [1; 1] None None)).
    reflexivity.
  - eexists. split.
    + eapply (proj2 (plot_grid_keeps_what_it_drew (plt := crowded_plotting)
                      [0; 0] [1; 1] (Some (a_scalar 1%Z)) None)
               (linspace_values 0 1 2) (linspace_values 0 1 2)
               (firstn 3 (grid_edges (linspace_values 0 1 2) (linspace_values 0 1 2)))
               (skipn 4 (grid_edges (linspace_values 0 1 2) (linspace_values 0 1 2)))
               ([nth 1 (linspace_values 0 1 2) 0; nth 0 (linspace_values 0 1 2) 0],
                [nth 1 (linspace_values 0 1 2) 0; nth 1 (linspace_values 0 1 2) 0])
               (ValueError "no room for another line") []).
      * reflexivity.
      * reflexivity.
      * cbn. reflexivity.
      * cbn. reflexivity.
    + reflexivity.
Defined.

(** * The geodesic ball of [Visualizer1D] *)

Section Ball.
Context {array matrix axes : Type} {np : Numpy array matrix}.
Variable metric : MetricClass array matrix.
Variables (ones_1 zeros_2 : array).
Variable ax_plot : list array -> array -> string -> drawing axes unit.

(** X13: [plot_geodesic_ball] makes one call of [ax.plot], on the two
    points [exp(-ray_norm * one, center)] and [exp(ray_norm * one, center)]
    in this order; with the opposite [ray_norm] it plots the same two
    points in the other order, so the sign of the radius only matters for
    that order.  When [exp] raises for the first point (as it does on the
    base class) the second is not computed and nothing is plotted. *)
Theorem geodesic_ball_endpoints (center : array) (ray_norm : R) :
  (forall left_ right_ ax,
      exp metric (scale (- ray_norm) ones_1) (Some center) = Ok left_ ->
      exp metric (scale ray_norm ones_1) (Some center) = Ok right_ ->
      Visualizer1D.plot_geodesic_ball metric ones_1 zeros_2 ax_plot
        center ray_norm ax
      = ax_plot [left_; right_] zeros_2 "bo" ax /\
      Visualizer1D.plot_geodesic_ball metric ones_1 zeros_2 ax_plot
        center (- ray_norm) ax
      = ax_plot [right_; left_] zeros_2 "bo" ax) /\
  (forall e ax,
      exp metric (scale (- ray_norm) ones_1) (Some center) = Raise e ->
      Visualizer1D.plot_geodesic_ball metric ones_1 zeros_2 ax_plot
        center ray_norm ax
      = (Raise e, ax)).
Proof.
  split.
  - intros left_ right_ ax Hl Hr. unfold Visualizer1D.plot_geodesic_ball.
    rewrite Ropp_involutive, Hl, Hr. now split.
  - intros e ax H. unfold Visualizer1D.plot_geodesic_ball. now rewrite H.
Qed.

End Ball.

(** X13 at work: the ball of centre 3 and radius 2 on the Euclidean
    line, and the same call on the base class. *)
Lemma geodesic_ball_endpoints_witness :
  Visualizer1D.plot_geodesic_ball (EuclideanMetric 1) [1] [0; 0] record_markers
    [3] 2 []
  = (Ok tt, [([[3 + - (2) * 1]; [3 + 2 * 1]], [0; 0], "bo"%string)]) /\
  Visualizer1D.plot_geodesic_ball (EuclideanMetric 1) [1] [0; 0] record_markers
    [3] (- (2)) []
  = (Ok tt, [([[3 + 2 * 1]; [3 + - (2) * 1]], [0; 0], "bo"%string)]) /\
  Visualizer1D.plot_geodesic_ball (RiemannianMetric vector matrix2) [1] [0; 0]
    record_markers [3] 2 []
  = (Raise (NotImplementedError "The Riemannian exponential is not implemented."),
     []).
Proof.
  split; [|split].
  - apply (proj1 (geodesic_ball_endpoints (EuclideanMetric 1) [1] [0; 0]
                    record_markers [3] 2) [3 + - (2) * 1] [3 + 2 * 1] []);
      reflexivity.
  - apply (proj1 (geodesic_ball_endpoints (EuclideanMetric 1) [1] [0; 0]
                    record_markers [3] 2) [3 + - (2) * 1] [3 + 2 * 1] []);
      reflexivity.
  - apply (proj2 (geodesic_ball_endpoints (RiemannianMetric vector matrix2)
                    [1] [0; 0] record_markers [3] 2)).
    reflexivity.
Defined.
